(** * Essent Dynamic: the payload parser and the tariff queries

    A shallow embedding of [custom_components/essent_dynamic]:
    - [coordinator.py]: [ParsedTariff], [EssentDayData] and
      [EssentDynamicCoordinator._async_update_data];
    - [sensor.py]: [_find_next_tariff], [_find_tariff_for_moment] and the
      [native_value] of the "now" and "next hour" sensors.

    Python values are modelled as the code sees them: a decoded JSON value is
    a tagged tree whose objects are finite maps with string keys, a
    [datetime] is a record of calendar fields with an optional UTC offset,
    and an exception that the code does not catch is an explicit [Raise]
    outcome of the function that lets it escape. *)

From Stdlib Require Import ZArith String Ascii List Lia Sorting.Sorted
  Sorting.Permutation.
From Stdlib Require Import Floats.SpecFloat.
From stdpp Require Import gmap strings list fin_maps sorting.

#[local] Set Warnings "-register-all".
#[local] Open Scope string_scope.
#[local] Open Scope Z_scope.

(** ** Outcomes: a returned value or an uncaught exception *)

Inductive exn : Type :=
| TypeError
| OverflowError
| IndexError.

Inductive outcome (A : Type) : Type :=
| Ret (a : A)
| Raise (e : exn).
Arguments Ret {A} a.
Arguments Raise {A} e.

#[export] Instance outcome_ret : MRet outcome := fun A a => Ret a.
#[export] Instance outcome_bind : MBind outcome := fun A B f m =>
  match m with
  | Ret a => f a
  | Raise e => Raise e
  end.

(** ** Python floats

    A Python [float] is an IEEE 754 binary64 number: 53 bits of precision,
    exponents below 1024. *)

Definition float : Type := spec_float.

Definition float_of_Z (z : Z) : float := binary_normalize 53 1024 z 0 false.

(** [float(n)] for a Python [int]: rounds to nearest-even and raises
    [OverflowError] when the integer is too large for a finite float. *)
Definition float_of_int (z : Z) : outcome float :=
  match float_of_Z z with
  | S754_infinity _ => Raise OverflowError
  | f => Ret f
  end.

(** ** Calendar dates and datetimes *)

Record date : Type := Date {
  year : Z;
  month : Z;
  day_of_month : Z
}.

(** [tzinfo] is [None] for a naive datetime and the UTC offset in
    microseconds for an aware one. *)
Record datetime : Type := DateTime {
  dt_date : date;
  hour : Z;
  minute : Z;
  second : Z;
  microsecond : Z;
  tzinfo : option Z
}.

#[export] Instance date_eq_dec : EqDecision date.
Proof. solve_decision. Defined.
#[export] Instance datetime_eq_dec : EqDecision datetime.
Proof. solve_decision. Defined.

Definition is_leap (y : Z) : bool :=
  (y mod 4 =? 0) && (negb (y mod 100 =? 0) || (y mod 400 =? 0)).

Definition days_before_year (y : Z) : Z :=
  let p := y - 1 in p * 365 + p / 4 - p / 100 + p / 400.

Definition days_in_month (y m : Z) : Z :=
  if m =? 2 then (if is_leap y then 29 else 28)
  else if (m =? 4) || (m =? 6) || (m =? 9) || (m =? 11) then 30
  else 31.

Definition days_before_month (y m : Z) : Z :=
  nth (Z.to_nat m) [0; 0; 31; 59; 90; 120; 151; 181; 212; 243; 273; 304; 334] 0
  + (if (2 <? m) && is_leap y then 1 else 0).

(** [date.toordinal()]: day 1 is 0001-01-01. *)
Definition toordinal (d : date) : Z :=
  days_before_year (year d) + days_before_month (year d) (month d)
  + day_of_month d.

(** Microseconds since the start of day 0, read off the calendar fields
    without looking at the offset. *)
Definition local_micros (t : datetime) : Z :=
  (((toordinal (dt_date t) * 24 + hour t) * 60 + minute t) * 60 + second t)
  * 1000000 + microsecond t.

(** The number that orders datetimes of one kind: the wall-clock time of a
    naive datetime, the UTC instant of an aware one. *)
Definition instant (t : datetime) : Z :=
  match tzinfo t with
  | None => local_micros t
  | Some off => local_micros t - off
  end.

Definition is_aware (t : datetime) : bool :=
  match tzinfo t with
  | None => false
  | Some _ => true
  end.

(** Ordering comparisons between datetimes.  Python raises [TypeError]
    ("can't compare offset-naive and offset-aware datetimes") when exactly
    one side carries an offset.  Two naive values are compared field by
    field, which for the field values Python allows (month 1-12, hour below
    24, ...) is the order of [local_micros]; two aware values are compared
    as UTC instants. *)
Definition dt_compare (a b : datetime) : outcome comparison :=
  match tzinfo a, tzinfo b with
  | None, None => Ret (local_micros a ?= local_micros b)
  | Some oa, Some ob => Ret (local_micros a - oa ?= local_micros b - ob)
  | _, _ => Raise TypeError
  end.

Definition dt_lt (a b : datetime) : outcome bool :=
  c ← dt_compare a b; Ret (match c with Lt => true | _ => false end).

Definition dt_le (a b : datetime) : outcome bool :=
  c ← dt_compare a b; Ret (match c with Gt => false | _ => true end).

Definition dt_gt (a b : datetime) : outcome bool :=
  c ← dt_compare a b; Ret (match c with Gt => true | _ => false end).

(** [datetime.date()] and [datetime.replace(tzinfo=...)]. *)
Definition date_of (t : datetime) : date := dt_date t.

Definition replace_tzinfo (t : datetime) (tz : option Z) : datetime :=
  {| dt_date := dt_date t; hour := hour t; minute := minute t;
     second := second t; microsecond := microsecond t; tzinfo := tz |}.

(** Dates compare field by field: year, then month, then day. *)
Definition date_gt (a b : date) : bool :=
  (year b <? year a)
  || ((year a =? year b)
      && ((month b <? month a)
          || ((month a =? month b) && (day_of_month b <? day_of_month a)))).

(** [date.isoformat()]: ["%04d-%02d-%02d"]. *)
Definition digit (n : Z) : ascii := ascii_of_nat (48 + Z.to_nat (n mod 10)).

Definition pad2 (n : Z) : string :=
  String (digit (n / 10)) (String (digit n) EmptyString).

Definition pad4 (n : Z) : string :=
  String (digit (n / 1000)) (String (digit (n / 100)) (pad2 n)).

Definition isoformat (d : date) : string :=
  (pad4 (year d) ++ "-" ++ pad2 (month d) ++ "-" ++ pad2 (day_of_month d))%string.

(** ** Decoded JSON values

    What [resp.json()] hands to the parser: [None], [bool], [int], [float],
    [str], [list], and [dict] with string keys. *)

Inductive json : Type :=
| JNull
| JBool (b : bool)
| JInt (z : Z)
| JFloat (f : float)
| JStr (s : string)
| JList (l : list json)
| JDict (m : gmap string json).

(** [d.get(k)]: the value under [k], or [None]. *)
Definition get (m : gmap string json) (k : string) : json :=
  default JNull (m !! k).

(** A Python number as [isinstance(v, (int, float))] sees it.  [bool] is a
    subclass of [int] in Python, so [True] and [False] pass that test. *)
Inductive number : Type :=
| NBool (b : bool)
| NInt (z : Z)
| NFloat (f : float).

(** [v if isinstance(v, (int, float)) else None]. *)
Definition as_number (v : json) : option number :=
  match v with
  | JBool b => Some (NBool b)
  | JInt z => Some (NInt z)
  | JFloat f => Some (NFloat f)
  | _ => None
  end.

Definition is_number (v : json) : bool :=
  match as_number v with
  | Some _ => true
  | None => false
  end.

(** [float(n)] for a value that passed the [isinstance] test. *)
Definition float_of_number (n : number) : outcome float :=
  match n with
  | NBool b => float_of_int (if b then 1 else 0)
  | NInt z => float_of_int z
  | NFloat f => Ret f
  end.

(** [float(v) if isinstance(v, (int, float)) else None]. *)
Definition float_or_none (v : option number) : outcome (option float) :=
  match v with
  | Some n => f ← float_of_number n; Ret (Some f)
  | None => Ret None
  end.

(** ** The parsed records of [coordinator.py] *)

Record ParsedTariff : Type := {
  start : datetime;
  end_ : datetime;
  total : float;
  market : option float;
  fee : option float;
  tax : option float
}.

Record EssentDayData : Type := {
  day : date;
  vat_percentage : option number;
  unit_of_measurement : option string;
  tariffs : list ParsedTariff
}.

(** ** Sorting by start

    [list.sort(key=lambda x: x.start)] and [sorted(..., key=...)] are one
    stable comparison sort that orders the keys with [<].  The embedding
    inserts each tariff, from the right, after the tariffs that start
    strictly before it: the result of a stable sort does not depend on the
    algorithm, and a key comparison that raises aborts the sort with that
    exception in Python as it does here. *)

Fixpoint insert_by_start (x : ParsedTariff) (l : list ParsedTariff)
  : outcome (list ParsedTariff) :=
  match l with
  | [] => Ret [x]
  | y :: l' =>
      b ← dt_lt (start y) (start x);
      if b : bool then r ← insert_by_start x l'; Ret (y :: r)
      else Ret (x :: y :: l')
  end.

Fixpoint sort_by_start (l : list ParsedTariff) : outcome (list ParsedTariff) :=
  match l with
  | [] => Ret []
  | x :: l' => s ← sort_by_start l'; insert_by_start x s
  end.

(** ** [coordinator.py]: the payload parser *)

(** Lines 133-136: the [by_type] dictionary, one assignment per group that
    is an object with a string ["type"]. *)
Definition add_group (by_type : gmap string json) (g : json)
  : gmap string json :=
  match g with
  | JDict g =>
      match get g "type" with
      | JStr ty => <[ty := get g "amount"]> by_type
      | _ => by_type
      end
  | _ => by_type
  end.

Definition group_by_type (groups : list json) : gmap string json :=
  fold_left add_group groups ∅.

(** Lines 130-140: [market], [fee] and [tax] before conversion. *)
Definition group_amounts (groups : json)
  : option number * option number * option number :=
  match groups with
  | JList gs =>
      let by_type := group_by_type gs in
      (as_number (get by_type "MARKET_PRICE"),
       as_number (get by_type "PURCHASING_FEE"),
       as_number (get by_type "TAX"))
  | _ => (None, None, None)
  end.

(** Lines 73-78: the first object whose ["date"] equals today's ISO date. *)
Fixpoint find_today (prices : list json) (today_iso : string)
  : option (gmap string json) :=
  match prices with
  | [] => None
  | JDict entry :: rest =>
      match get entry "date" with
      | JStr s => if String.eqb s today_iso then Some entry
                  else find_today rest today_iso
      | _ => find_today rest today_iso
      end
  | _ :: rest => find_today rest today_iso
  end.

(** Lines 70-85: day selection. *)
Definition select_day (prices : list json) (today : date)
  : option (gmap string json) :=
  match find_today prices (isoformat today) with
  | Some entry => Some entry
  | None =>
      match prices with
      | JDict first :: _ => Some first
      | _ => None
      end
  end.

Section Parser.

(** [date.fromisoformat] and [datetime.fromisoformat] of the Python
    standard library; [None] stands for the [ValueError] they raise on a
    string they do not accept. *)
Variable date_fromisoformat : string → option date.
Variable datetime_fromisoformat : string → option datetime.

(** Lines 87-92. *)
Definition parse_day (day_str : json) (today : date) : date :=
  match day_str with
  | JStr s => default today (date_fromisoformat s)
  | _ => today
  end.

(** Lines 110-155: the body of the loop over [tariffs_raw].  [Ret None]
    is a [continue]. *)
Definition parse_tariff (t : json) : outcome (option ParsedTariff) :=
  match t with
  | JDict t =>
      match get t "startDateTime", get t "endDateTime", get t "totalAmount" with
      | _, _, JNull => Ret None
      | JStr start_str, JStr end_str, total_raw =>
          match datetime_fromisoformat start_str,
                datetime_fromisoformat end_str with
          | Some start_dt, Some end_dt =>
              let '(market_raw, fee_raw, tax_raw) :=
                group_amounts (get t "groups") in
              match as_number total_raw with
              | None => Ret None
              | Some n =>
                  total_f ← float_of_number n;
                  market_f ← float_or_none market_raw;
                  fee_f ← float_or_none fee_raw;
                  tax_f ← float_or_none tax_raw;
                  Ret (Some {| start := start_dt; end_ := end_dt;
                                total := total_f; market := market_f;
                                fee := fee_f; tax := tax_f |})
              end
          | _, _ => Ret None
          end
      | _, _, _ => Ret None
      end
  | _ => Ret None
  end.

(** Lines 107-155: the loop; the first entry that raises ends it. *)
Fixpoint parse_tariffs (tariffs_raw : list json)
  : outcome (list ParsedTariff) :=
  match tariffs_raw with
  | [] => Ret []
  | t :: rest =>
      r ← parse_tariff t;
      rs ← parse_tariffs rest;
      Ret (match r with Some p => p :: rs | None => rs end)
  end.

(** Lines 99-168, given the chosen day's ["electricity"] object. *)
Definition parse_electricity (day : date) (electricity : gmap string json)
  : outcome (option EssentDayData) :=
  let unit := get electricity "unitOfMeasurement" in
  let vat := get electricity "vatPercentage" in
  match get electricity "tariffs" with
  | JList ((_ :: _) as tariffs_raw) =>
      parsed_tariffs ← parse_tariffs tariffs_raw;
      match parsed_tariffs with
      | [] => Ret None
      | _ :: _ =>
          sorted ← sort_by_start parsed_tariffs;
          Ret (Some {| day := day;
                        vat_percentage := as_number vat;
                        unit_of_measurement :=
                          match unit with JStr u => Some u | _ => None end;
                        tariffs := sorted |})
      end
  | _ => Ret None
  end.

(** Lines 65-168: everything after the fetch. *)
Definition parse (payload : json) (today : date)
  : outcome (option EssentDayData) :=
  match (match payload with JDict p => get p "prices" | _ => JNull end) with
  | JList ((_ :: _) as prices) =>
      match select_day prices today with
      | None => Ret None
      | Some chosen =>
          let day := parse_day (get chosen "date") today in
          match get chosen "electricity" with
          | JDict electricity => parse_electricity day electricity
          | _ => Ret None
          end
      end
  | _ => Ret None
  end.

(** [EssentDynamicCoordinator._async_update_data].  [fetch] is what the
    [try] block of lines 57-63 produced: the decoded body, or [None] when
    the request, the status check or the decoding raised.  [today] is
    [dt_util.now().date()]. *)
Definition _async_update_data (fetch : option json) (today : date)
  : outcome (option EssentDayData) :=
  match fetch with
  | None => Ret None
  | Some payload => parse payload today
  end.

End Parser.

(** ** [sensor.py]: the tariff queries *)

(** Lines 64-70: [now] made comparable with the tariffs' start times. *)
Definition normalize_now (reference_tzinfo : option Z) (now : datetime)
  : datetime :=
  match reference_tzinfo with
  | None => replace_tzinfo now None
  | Some tz =>
      match tzinfo now with
      | Some _ => now
      | None => replace_tzinfo now (Some tz)
      end
  end.

(** Lines 72-74. *)
Fixpoint first_starting_after (now_cmp : datetime) (l : list ParsedTariff)
  : outcome (option ParsedTariff) :=
  match l with
  | [] => Ret None
  | tariff :: rest =>
      b ← dt_gt (start tariff) now_cmp;
      if b : bool then Ret (Some tariff)
      else first_starting_after now_cmp rest
  end.

(** Lines 77-80. *)
Fixpoint first_on_later_day (today : date) (l : list ParsedTariff)
  : option ParsedTariff :=
  match l with
  | [] => None
  | tariff :: rest =>
      if date_gt (date_of (start tariff)) today then Some tariff
      else first_on_later_day today rest
  end.

Definition _find_next_tariff (data : EssentDayData) (now : datetime)
  : outcome (option ParsedTariff) :=
  match tariffs data with
  | [] => Ret None
  | _ :: _ =>
      sorted ← sort_by_start (tariffs data);
      match sorted with
      | [] => Raise IndexError
      | first :: _ =>
          let now_cmp := normalize_now (tzinfo (start first)) now in
          r ← first_starting_after now_cmp sorted;
          match r with
          | Some tariff => Ret (Some tariff)
          | None =>
              match first_on_later_day (date_of now_cmp) sorted with
              | Some tariff => Ret (Some tariff)
              | None =>
                  match last sorted with
                  | Some tariff => Ret (Some tariff)
                  | None => Raise IndexError
                  end
              end
          end
      end
  end.

(** Line 91: the chained comparison [t.start <= moment < t.end]. *)
Definition covers (t : ParsedTariff) (moment : datetime) : outcome bool :=
  b ← dt_le (start t) moment;
  if b : bool then dt_lt moment (end_ t) else Ret false.

Fixpoint scan_for_moment (l : list ParsedTariff) (moment : datetime)
  : outcome (option ParsedTariff) :=
  match l with
  | [] => Ret None
  | t :: rest =>
      b ← covers t moment;
      if b : bool then Ret (Some t) else scan_for_moment rest moment
  end.

Definition _find_tariff_for_moment (data : EssentDayData) (moment : datetime)
  : outcome (option ParsedTariff) :=
  scan_for_moment (tariffs data) moment.

(** [EssentNowPriceSensor.native_value].  [data] is [self.coordinator.data]
    and [now] is [dt_util.as_local(dt_util.now())], which Home Assistant
    returns with the local time zone attached. *)
Definition EssentNowPriceSensor_native_value
  (data : option EssentDayData) (now : datetime) : outcome (option float) :=
  match data with
  | None => Ret None
  | Some data =>
      tariff ← _find_tariff_for_moment data now;
      Ret (match tariff with Some t => Some (total t) | None => None end)
  end.

(** [EssentNextHourPriceSensor.native_value].  [now] is the naive
    [datetime.now()] cut to whole seconds. *)
Definition EssentNextHourPriceSensor_native_value
  (data : option EssentDayData) (now : datetime) : outcome (option float) :=
  match data with
  | None => Ret None
  | Some data =>
      tariff ← _find_next_tariff data now;
      Ret (match tariff with Some t => Some (total t) | None => None end)
  end.

(** ** The coordinator's refresh

    [EssentDynamicCoordinator] leaves the refresh itself to the class it
    extends, [DataUpdateCoordinator[EssentDayData | None]], whose
    [async_refresh] ([__init__.py], line 28) assigns the value returned by
    [_async_update_data] to [self.data] and keeps the old [self.data] when
    the update raises.  [self.data] is what every sensor reads
    ([_EssentBaseSensor._data]). *)

Record coordinator : Type := {
  data : option EssentDayData;
  last_update_success : bool
}.

Section Refresh.

Variable date_fromisoformat : string → option date.
Variable datetime_fromisoformat : string → option datetime.

Definition async_refresh (c : coordinator) (fetch : option json)
  (today : date) : coordinator :=
  match _async_update_data date_fromisoformat datetime_fromisoformat
          fetch today with
  | Ret d => {| data := d; last_update_success := true |}
  | Raise _ => {| data := data c; last_update_success := false |}
  end.

End Refresh.

(** ** ISO 8601 strings in the layout the API documents

    [date_fromisoformat_ext] reads ["YYYY-MM-DD"] and
    [datetime_fromisoformat_ext] reads ["YYYY-MM-DDTHH:MM:SS"], bare or
    followed by ["+HH:MM"] or ["-HH:MM"].  On these layouts they return what
    Python's [fromisoformat] returns; Python accepts further layouts, so the
    general results below are stated for arbitrary parsers and these two
    serve for concrete payloads. *)

Definition digit_value (c : ascii) : option Z :=
  let n := Z.of_nat (nat_of_ascii c) in
  if (48 <=? n) && (n <=? 57) then Some (n - 48) else None.

Fixpoint digits_value (acc : Z) (s : string) : option Z :=
  match s with
  | EmptyString => Some acc
  | String c rest =>
      match digit_value c with
      | Some d => digits_value (acc * 10 + d) rest
      | None => None
      end
  end.

Definition number_at (s : string) (pos len : nat) : option Z :=
  let part := substring pos len s in
  if Nat.eqb (String.length part) len then digits_value 0 part else None.

Definition char_at (s : string) (pos : nat) (c : string) : bool :=
  String.eqb (substring pos 1 s) c.

Definition check_date (y m d : Z) : option date :=
  if (1 <=? y) && (1 <=? m) && (m <=? 12) && (1 <=? d)
     && (d <=? days_in_month y m)
  then Some (Date y m d) else None.

Definition date_prefix (s : string) : option date :=
  if char_at s 4 "-" && char_at s 7 "-" then
    y ← number_at s 0 4; m ← number_at s 5 2; d ← number_at s 8 2;
    check_date y m d
  else None.

Definition date_fromisoformat_ext (s : string) : option date :=
  if Nat.eqb (String.length s) 10 then date_prefix s else None.

Definition time_at (s : string) (pos : nat) : option (Z * Z * Z) :=
  if char_at s (pos + 2) ":" && char_at s (pos + 5) ":" then
    h ← number_at s pos 2; mi ← number_at s (pos + 3) 2;
    sec ← number_at s (pos + 6) 2;
    if (h <=? 23) && (mi <=? 59) && (sec <=? 59) then Some (h, mi, sec)
    else None
  else None.

Definition offset_at (s : string) (pos : nat) : option Z :=
  let sign :=
    if char_at s pos "+" then Some 1
    else if char_at s pos "-" then Some (-1) else None in
  if char_at s (pos + 3) ":" then
    sg ← sign; h ← number_at s (pos + 1) 2; mi ← number_at s (pos + 4) 2;
    if (h <=? 23) && (mi <=? 59)
    then Some (sg * (h * 60 + mi) * 60 * 1000000) else None
  else None.

Definition datetime_fromisoformat_ext (s : string) : option datetime :=
  if char_at s 10 "T" then
    d ← date_prefix s;
    '(h, mi, sec) ← time_at s 11;
    if Nat.eqb (String.length s) 19 then Some (DateTime d h mi sec 0 None)
    else if Nat.eqb (String.length s) 25 then
      off ← offset_at s 19; Some (DateTime d h mi sec 0 (Some off))
    else None
  else None.

(** ** Concrete payloads *)

(** A JSON object written as its list of members. *)
Definition obj (members : list (string * json)) : json :=
  JDict (list_to_map members).

Definition tariff_entry (start_str end_str : string) (total_raw : json) : json :=
  obj [("startDateTime", JStr start_str); ("endDateTime", JStr end_str);
       ("totalAmount", total_raw)].

Definition day_entry (date_str : string) (tariffs_raw : list json) : json :=
  obj [("date", JStr date_str);
       ("electricity", obj [("unitOfMeasurement", JStr "kWh");
                            ("vatPercentage", JInt 21);
                            ("tariffs", JList tariffs_raw)])].

Definition payload_of (days : list json) : json := obj [("prices", JList days)].

Definition update_ext : option json → date → outcome (option EssentDayData) :=
  _async_update_data date_fromisoformat_ext datetime_fromisoformat_ext.

(** ** The payload as the specification reads it

    These definitions follow the words of the specification (§4.1); the
    results below relate them to the embedded code. *)

(** Step 1: the ["prices"] sequence of an object payload. *)
Definition prices_of (payload : json) : option (list json) :=
  match payload with
  | JDict p => match get p "prices" with JList l => Some l | _ => None end
  | _ => None
  end.

(** An entry of ["prices"] that is an object dated [today]. *)
Definition dated (today_iso : string) (entry : json) : Prop :=
  ∃ m, entry = JDict m ∧ get m "date" = JStr today_iso.

(** Step 2: the chosen entry of a payload. *)
Definition chosen_day (payload : json) (today : date)
  : option (gmap string json) :=
  match prices_of payload with
  | Some prices => select_day prices today
  | None => None
  end.

(** Steps 4 and 6: the chosen entry's ["electricity"] object and its
    ["tariffs"] sequence. *)
Definition chosen_electricity (payload : json) (today : date)
  : option (gmap string json) :=
  match chosen_day payload today with
  | Some c => match get c "electricity" with JDict el => Some el | _ => None end
  | None => None
  end.

Definition chosen_tariffs (payload : json) (today : date)
  : option (list json) :=
  match chosen_electricity payload today with
  | Some el => match get el "tariffs" with JList l => Some l | _ => None end
  | None => None
  end.



Section Reading.

Variable date_fromisoformat : string → option date.
Variable datetime_fromisoformat : string → option datetime.

(** Step 7: an entry that is syntactically complete: an object with
    string start and end datetimes that parse and a numeric
    ["totalAmount"]. *)
Definition is_complete (t : json) : bool :=
  match t with
  | JDict m =>
      match get m "startDateTime", get m "endDateTime" with
      | JStr ss, JStr es =>
          bool_decide (is_Some (datetime_fromisoformat ss))
          && bool_decide (is_Some (datetime_fromisoformat es))
          && is_number (get m "totalAmount")
      | _, _ => false
      end
  | _ => false
  end.

(** The tariff [p] carries the start, end and total of the entry [t]. *)
Definition emitted_from (t : json) (p : ParsedTariff) : Prop :=
  ∃ m ss es n,
    t = JDict m
    ∧ get m "startDateTime" = JStr ss
    ∧ get m "endDateTime" = JStr es
    ∧ datetime_fromisoformat ss = Some (start p)
    ∧ datetime_fromisoformat es = Some (end_ p)
    ∧ as_number (get m "totalAmount") = Some n
    ∧ float_of_number n = Ret (total p).

(** Step 3: the day recorded for the chosen entry. *)
Inductive recorded_day (chosen : gmap string json) (today : date)
  : date → Prop :=
| day_parsed s d :
    get chosen "date" = JStr s → date_fromisoformat s = Some d →
    recorded_day chosen today d
| day_unparsable s :
    get chosen "date" = JStr s → date_fromisoformat s = None →
    recorded_day chosen today today
| day_absent :
    (∀ s, get chosen "date" ≠ JStr s) →
    recorded_day chosen today today.

(** §4.1, "Failure semantics": the structural failures of a payload. *)
Inductive structural_failure (payload : json) (today : date) : Prop :=
| prices_missing :
    prices_of payload = None → structural_failure payload today
| prices_empty :
    prices_of payload = Some [] → structural_failure payload today
| fallback_not_object first rest :
    prices_of payload = Some (first :: rest) →
    Forall (λ e, ¬ dated (isoformat today) e) (first :: rest) →
    (∀ m, first ≠ JDict m) →
    structural_failure payload today
| electricity_missing c :
    chosen_day payload today = Some c →
    (∀ el, get c "electricity" ≠ JDict el) →
    structural_failure payload today
| tariffs_missing el :
    chosen_electricity payload today = Some el →
    (∀ l, get el "tariffs" ≠ JList l) →
    structural_failure payload today
| tariffs_empty el :
    chosen_electricity payload today = Some el →
    get el "tariffs" = JList [] →
    structural_failure payload today
| none_survive raw :
    chosen_tariffs payload today = Some raw →
    Forall (λ t, is_complete t = false) raw →
    structural_failure payload today.

(** A failed fetch, or a fetched payload with a structural failure. *)
Definition failed_update (fetch : option json) (today : date) : Prop :=
  fetch = None
  ∨ ∃ payload, fetch = Some payload
               ∧ structural_failure payload today.

End Reading.


(** The outcome [r] with the day [d] in place of its own. *)
Definition with_day (d : date) (r : outcome (option EssentDayData))
  : outcome (option EssentDayData) :=
  match r with
  | Ret (Some data) =>
      Ret (Some {| day := d; vat_percentage := vat_percentage data;
                   unit_of_measurement := unit_of_measurement data;
                   tariffs := tariffs data |})
  | other => other
  end.

(** [covers] where both comparisons are defined. *)
Definition covers_instant (moment : datetime) (t : ParsedTariff) : bool :=
  (instant (start t) <=? instant moment)
  && (instant moment <? instant (end_ t)).

(** ** Order and the next tariff

    The vocabulary of "sorted ascending by start" and of §4.2. *)

(** [a] starts no later than [b], as Python's [<=] decides it. *)
Definition start_le (a b : ParsedTariff) : Prop :=
  dt_le (start a) (start b) = Ret true.

Definition sorted_by_start (l : list ParsedTariff) : Prop :=
  StronglySorted start_le l.

(** All start times are of one kind: all aware or all naive. *)
Definition uniform (aw : bool) (l : list ParsedTariff) : Prop :=
  Forall (λ t, is_aware (start t) = aw) l.

(** The vocabulary of the specification (§4.2, [priceAtOrAfter]). *)
Definition starts_after (m : datetime) (t : ParsedTariff) : Prop :=
  dt_gt (start t) m = Ret true.

Definition on_later_day (m : datetime) (t : ParsedTariff) : Prop :=
  date_gt (date_of (start t)) (date_of m) = true.

Definition earliest_among (P : ParsedTariff → Prop) (ts : list ParsedTariff)
  (r : ParsedTariff) : Prop :=
  r ∈ ts ∧ P r ∧ ∀ t, t ∈ ts → P t → start_le r t.

Definition latest (ts : list ParsedTariff) (r : ParsedTariff) : Prop :=
  r ∈ ts ∧ ∀ t, t ∈ ts → start_le t r.

Inductive next_tariff (ts : list ParsedTariff) (m : datetime)
  (r : ParsedTariff) : Prop :=
| next_after :
    earliest_among (starts_after m) ts r → next_tariff ts m r
| next_later_day :
    (∀ t, t ∈ ts → ¬ starts_after m t) →
    earliest_among (on_later_day m) ts r → next_tariff ts m r
| next_last :
    (∀ t, t ∈ ts → ¬ starts_after m t) →
    (∀ t, t ∈ ts → ¬ on_later_day m t) →
    latest ts r → next_tariff ts m r.

(** ** Concrete payloads and sets (continued) *)

Definition jan (d h : Z) (tz : option Z) : datetime :=
  DateTime (Date 2024 1 d) h 0 0 0 tz.

Definition hour_tariff (s e : datetime) (z : Z) : ParsedTariff :=
  {| start := s; end_ := e; total := float_of_Z z;
     market := None; fee := None; tax := None |}.

(** Two hourly tariffs with naive timestamps, as the API sends them. *)
Definition naive_entry : json :=
  day_entry "2024-01-01"
    [tariff_entry "2024-01-01T00:00:00" "2024-01-01T01:00:00" (JInt 1);
     tariff_entry "2024-01-01T01:00:00" "2024-01-01T02:00:00" (JInt 2)].

Definition naive_payload : json := payload_of [naive_entry].

Definition first_hour : ParsedTariff :=
  hour_tariff (jan 1 0 None) (jan 1 1 None) 1.

Definition second_hour : ParsedTariff :=
  hour_tariff (jan 1 1 None) (jan 1 2 None) 2.

Definition naive_day : EssentDayData :=
  {| day := Date 2024 1 1;
     vat_percentage := Some (NInt 21);
     unit_of_measurement := Some "kWh";
     tariffs := [first_hour; second_hour] |}.

(** Two groups of one type; the second amount is not a number. *)
Definition tax_groups : list json :=
  [obj [("type", JStr "TAX"); ("amount", JInt 1)];
   obj [("type", JStr "TAX"); ("amount", JStr "n/a")]].

(** One tariff that ends before it starts. *)
Definition backwards_payload : json :=
  payload_of
    [day_entry "2024-01-01"
       [tariff_entry "2024-01-01T10:00:00" "2024-01-01T09:00:00" (JInt 1)]].

Definition backwards_tariff : ParsedTariff :=
  hour_tariff (jan 1 10 None) (jan 1 9 None) 1.

(** One naive and one aware start time in the same day. *)
Definition mixed_payload : json :=
  payload_of
    [day_entry "2024-01-01"
       [tariff_entry "2024-01-01T00:00:00" "2024-01-01T01:00:00" (JInt 1);
        tariff_entry "2024-01-01T01:00:00+01:00" "2024-01-01T02:00:00+01:00"
          (JInt 2)]].

(** An integer total beyond the range of a float. *)
Definition huge_total_payload : json :=
  payload_of
    [day_entry "2024-01-01"
       [tariff_entry "2024-01-01T00:00:00" "2024-01-01T01:00:00"
          (JInt (10 ^ 400))]].

(** The local time 00:30 at UTC+01:00, as [dt_util.as_local] returns it. *)
Definition aware_now : datetime :=
  DateTime (Date 2024 1 1) 0 30 0 0 (Some 3600000000).

(** ** [sensor.py]: the remaining helpers and sensors *)

(** [_start_of_hour]: [local_now.replace(minute=0, second=0,
    microsecond=0)]. *)
Definition _start_of_hour (local_now : datetime) : datetime :=
  {| dt_date := dt_date local_now; hour := hour local_now; minute := 0;
     second := 0; microsecond := 0; tzinfo := tzinfo local_now |}.

(** [_EssentBaseSensor.available]: [self._data is not None]. *)
Definition available (c : coordinator) : bool :=
  match data c with
  | Some _ => true
  | None => false
  end.

(** The builtins [min] and [max] over a sequence of floats: the first item
    is kept until a later one is strictly smaller ([<]), respectively
    strictly greater ([>]).  They raise [ValueError] on an empty sequence,
    which [None] stands for here. *)
Fixpoint min_from (current : float) (items : list float) : float :=
  match items with
  | [] => current
  | item :: rest => min_from (if SFltb item current then item else current) rest
  end.

Fixpoint max_from (current : float) (items : list float) : float :=
  match items with
  | [] => current
  | item :: rest => max_from (if SFltb current item then item else current) rest
  end.

Definition py_min (items : list float) : option float :=
  match items with
  | [] => None
  | first :: rest => Some (min_from first rest)
  end.

Definition py_max (items : list float) : option float :=
  match items with
  | [] => None
  | first :: rest => Some (max_from first rest)
  end.

(** What a [native_value] of the min and max sensors does: it returns a
    price or [None], or the builtin raises [ValueError]. *)
Inductive price_result : Type :=
| Returned (value : option float)
| RaisedValueError.

(** [EssentMinPriceTodaySensor.native_value]. *)
Definition EssentMinPriceTodaySensor_native_value
  (data : option EssentDayData) : price_result :=
  match data with
  | None => Returned None
  | Some data =>
      match py_min (map total (tariffs data)) with
      | Some m => Returned (Some m)
      | None => RaisedValueError
      end
  end.

(** [EssentMaxPriceTodaySensor.native_value]. *)
Definition EssentMaxPriceTodaySensor_native_value
  (data : option EssentDayData) : price_result :=
  match data with
  | None => Returned None
  | Some data =>
      match py_max (map total (tariffs data)) with
      | Some m => Returned (Some m)
      | None => RaisedValueError
      end
  end.

(** [datetime.isoformat()]: the date, ["T"], the time with its
    microseconds when they are not zero, and the UTC offset of an aware
    value as ["+HH:MM"], with seconds and microseconds when it has them. *)
Definition pad6 (n : Z) : string :=
  String (digit (n / 100000)) (String (digit (n / 10000)) (pad4 n)).

Definition offset_isoformat (off : Z) : string :=
  let sign := if off <? 0 then "-" else "+" in
  let a := Z.abs off in
  let hh := a / 3600000000 in
  let mm := a mod 3600000000 / 60000000 in
  let ss := a mod 60000000 / 1000000 in
  let us := a mod 1000000 in
  (sign ++ pad2 hh ++ ":" ++ pad2 mm
   ++ (if ((ss =? 0) && (us =? 0))%Z then ""
       else ":" ++ pad2 ss
            ++ (if (us =? 0)%Z then "" else "." ++ pad6 us)))%string.

Definition datetime_isoformat (t : datetime) : string :=
  (isoformat (dt_date t) ++ "T"
   ++ pad2 (hour t) ++ ":" ++ pad2 (minute t) ++ ":" ++ pad2 (second t)
   ++ (if (microsecond t =? 0)%Z then "" else "." ++ pad6 (microsecond t))
   ++ match tzinfo t with
      | Some off => offset_isoformat off
      | None => ""
      end)%string.

(** Python values as they sit in the attributes dictionary. *)
Definition json_of_number (n : number) : json :=
  match n with
  | NBool b => JBool b
  | NInt z => JInt z
  | NFloat f => JFloat f
  end.

Definition json_of_option {A : Type} (f : A → json) (o : option A) : json :=
  match o with
  | Some a => f a
  | None => JNull
  end.

(** Lines 135-144: one entry of [compact_tariffs]. *)
Definition compact_tariff (t : ParsedTariff) : json :=
  JDict (<["start" := JStr (datetime_isoformat (start t))]>
         (<["end" := JStr (datetime_isoformat (end_ t))]>
          (<["total" := JFloat (total t)]>
           (<["market" := json_of_option JFloat (market t)]>
            (<["fee" := json_of_option JFloat (fee t)]>
             (<["tax" := json_of_option JFloat (tax t)]> ∅)))))).

(** [EssentNowPriceSensor.extra_state_attributes]: the dictionary, empty
    when the coordinator holds no data. *)
Definition extra_state_attributes (data : option EssentDayData)
  : gmap string json :=
  match data with
  | None => ∅
  | Some data =>
      <["vatPercentage" := json_of_option json_of_number (vat_percentage data)]>
      (<["unitOfMeasurement" := json_of_option JStr (unit_of_measurement data)]>
       (<["day" := JStr (isoformat (day data))]>
        (<["tariffs" := JList (map compact_tariff (take 48 (tariffs data)))]>
         ∅)))
  end.

(** A calendar date and a time of day as Python admits them. *)
Definition valid_date (d : date) : Prop :=
  1 <= year d <= 9999 ∧ 1 <= month d <= 12
  ∧ 1 <= day_of_month d <= days_in_month (year d) (month d).

Definition valid_time (t : datetime) : Prop :=
  0 <= hour t < 24 ∧ 0 <= minute t < 60 ∧ 0 <= second t < 60
  ∧ 0 <= microsecond t < 1000000.

(** A group that is not an object with a string ["type"]. *)
Definition malformed_group (g : json) : Prop :=
  ∀ m ty, g = JDict m → get m "type" ≠ JStr ty.

(** Two outcomes of the parse that differ at most in the unit and the VAT
    percentage of the set. *)
Definition same_but_metadata (r r' : outcome (option EssentDayData)) : Prop :=
  match r, r' with
  | Ret (Some a), Ret (Some b) => tariffs a = tariffs b ∧ day a = day b
  | Ret None, Ret None => True
  | Raise e, Raise e' => e = e'
  | _, _ => False
  end.

(** A datetime in whole seconds whose offset, if any, is in whole minutes
    and within a day: what [datetime_fromisoformat_ext] can read back. *)
Definition exportable (t : datetime) : Prop :=
  valid_date (dt_date t) ∧ valid_time t ∧ microsecond t = 0
  ∧ match tzinfo t with
    | Some off => -86400000000 < off < 86400000000 ∧ off mod 60000000 = 0
    | None => True
    end.





(** The ["electricity"] object of [naive_entry]. *)
Definition naive_electricity : gmap string json :=
  list_to_map
    [("unitOfMeasurement", JStr "kWh");
     ("vatPercentage", JInt 21);
     ("tariffs",
      JList
        [tariff_entry "2024-01-01T00:00:00" "2024-01-01T01:00:00" (JInt 1);
         tariff_entry "2024-01-01T01:00:00" "2024-01-01T02:00:00" (JInt 2)])].

(** * Properties *)

(** ** Outcomes *)

Lemma bind_Ret_inv {A B : Type} (m : outcome A) (f : A → outcome B) (b : B) :
  m ≫= f = Ret b → ∃ a, m = Ret a ∧ f a = Ret b.
Proof. destruct m as [a|e]; simpl; [eauto | discriminate]. Qed.

Lemma bind_Ret {A B : Type} (m : outcome A) (f : A → outcome B) (a : A) :
  m = Ret a → m ≫= f = f a.
Proof. intros ->. reflexivity. Qed.

Lemma bind_Raise {A B : Type} (m : outcome A) (f : A → outcome B) (e : exn) :
  m = Raise e → m ≫= f = Raise e.
Proof. intros ->. reflexivity. Qed.

(** Splits a hypothesis [m ≫= f = Ret b] into its two steps. *)
Ltac bind_inv H :=
  let a := fresh "a" in
  let Ha := fresh "Hstep" in
  apply bind_Ret_inv in H; destruct H as (a & Ha & H).

(** ** Comparing datetimes *)

Lemma dt_compare_same (a b : datetime) :
  is_aware a = is_aware b → dt_compare a b = Ret (instant a ?= instant b).
Proof.
  unfold is_aware, dt_compare, instant.
  destruct (tzinfo a), (tzinfo b); intros H; try discriminate; reflexivity.
Qed.

Lemma dt_compare_mixed (a b : datetime) :
  is_aware a ≠ is_aware b → dt_compare a b = Raise TypeError.
Proof.
  unfold is_aware, dt_compare.
  destruct (tzinfo a), (tzinfo b); intros H; try reflexivity; congruence.
Qed.

Lemma dt_compare_Ret_inv (a b : datetime) (c : comparison) :
  dt_compare a b = Ret c → is_aware a = is_aware b.
Proof.
  destruct (bool_decide (is_aware a = is_aware b)) eqn:E.
  - intros _. by apply bool_decide_eq_true in E.
  - apply bool_decide_eq_false in E.
    rewrite (dt_compare_mixed _ _ E). discriminate.
Qed.

Lemma dt_lt_same (a b : datetime) :
  is_aware a = is_aware b → dt_lt a b = Ret (instant a <? instant b).
Proof.
  intros H. unfold dt_lt. rewrite (dt_compare_same _ _ H). simpl.
  unfold Z.ltb. by destruct (instant a ?= instant b).
Qed.

Lemma dt_le_same (a b : datetime) :
  is_aware a = is_aware b → dt_le a b = Ret (instant a <=? instant b).
Proof.
  intros H. unfold dt_le. rewrite (dt_compare_same _ _ H). simpl.
  unfold Z.leb. by destruct (instant a ?= instant b).
Qed.

Lemma dt_gt_same (a b : datetime) :
  is_aware a = is_aware b → dt_gt a b = Ret (instant b <? instant a).
Proof.
  intros H. unfold dt_gt. rewrite (dt_compare_same _ _ H). simpl.
  rewrite Z.ltb_antisym. unfold Z.leb. by destruct (instant a ?= instant b).
Qed.

Lemma dt_lt_mixed (a b : datetime) :
  is_aware a ≠ is_aware b → dt_lt a b = Raise TypeError.
Proof. intros H. unfold dt_lt. by rewrite (dt_compare_mixed _ _ H). Qed.

Lemma dt_le_mixed (a b : datetime) :
  is_aware a ≠ is_aware b → dt_le a b = Raise TypeError.
Proof. intros H. unfold dt_le. by rewrite (dt_compare_mixed _ _ H). Qed.

Lemma dt_gt_mixed (a b : datetime) :
  is_aware a ≠ is_aware b → dt_gt a b = Raise TypeError.
Proof. intros H. unfold dt_gt. by rewrite (dt_compare_mixed _ _ H). Qed.

Lemma dt_lt_Ret_inv (a b : datetime) (r : bool) :
  dt_lt a b = Ret r → is_aware a = is_aware b.
Proof.
  unfold dt_lt. intros H. bind_inv H. by eapply dt_compare_Ret_inv.
Qed.

Lemma dt_le_Ret_inv (a b : datetime) (r : bool) :
  dt_le a b = Ret r → is_aware a = is_aware b.
Proof.
  unfold dt_le. intros H. bind_inv H. by eapply dt_compare_Ret_inv.
Qed.

(** ** Sorting by start *)

Lemma start_le_instant (a b : ParsedTariff) :
  start_le a b ↔
  is_aware (start a) = is_aware (start b)
  ∧ instant (start a) <= instant (start b).
Proof.
  unfold start_le. split.
  - intros H. pose proof (dt_le_Ret_inv _ _ _ H) as Haw. split; [done|].
    rewrite (dt_le_same _ _ Haw) in H. injection H as H. lia.
  - intros [Haw Hle]. rewrite (dt_le_same _ _ Haw). f_equal. lia.
Qed.

Lemma uniform_perm (aw : bool) (l l' : list ParsedTariff) :
  Permutation l l' → uniform aw l → uniform aw l'.
Proof. intros Hp Hu. unfold uniform in *. by rewrite <- Hp. Qed.

Lemma insert_by_start_uniform (aw : bool) (x : ParsedTariff)
  (l : list ParsedTariff) :
  is_aware (start x) = aw → uniform aw l →
  ∃ r, insert_by_start x l = Ret r
       ∧ Permutation (x :: l) r
       ∧ (sorted_by_start l → sorted_by_start r).
Proof.
  intros Hx Hu. induction Hu as [|y l Hy Hu IH]; simpl.
  - eexists. split; [reflexivity|]. split; [done|].
    intros _. repeat constructor.
  - rewrite dt_lt_same by congruence. simpl.
    destruct (instant (start y) <? instant (start x)) eqn:E.
    + destruct IH as (r & -> & Hp & Hs). simpl.
      eexists. split; [reflexivity|]. split.
      * rewrite <- Hp. apply perm_swap.
      * intros Hsort. apply StronglySorted_inv in Hsort as [Hl Hall].
        constructor; [by apply Hs|].
        rewrite <- Hp. constructor; [|done].
        apply start_le_instant. split; [congruence|]. lia.
    + eexists. split; [reflexivity|]. split; [done|].
      intros Hsort. constructor; [done|].
      assert (Hxy : start_le x y).
      { apply start_le_instant. split; [congruence|]. lia. }
      constructor; [done|].
      apply StronglySorted_inv in Hsort as [_ Hall].
      eapply Forall_impl; [exact Hall|]. simpl. intros z Hz.
      apply start_le_instant in Hxy as [Hxy1 Hxy2].
      apply start_le_instant in Hz as [Hz1 Hz2].
      apply start_le_instant. split; [congruence | lia].
Qed.

Lemma sort_by_start_uniform (aw : bool) (l : list ParsedTariff) :
  uniform aw l →
  ∃ r, sort_by_start l = Ret r ∧ Permutation l r ∧ sorted_by_start r.
Proof.
  induction 1 as [|x l Hx Hu IH]; simpl.
  - exists []. repeat split; constructor.
  - destruct IH as (s & -> & Hp & Hs). simpl.
    destruct (insert_by_start_uniform aw x s Hx (uniform_perm _ _ _ Hp Hu))
      as (r & Hr & Hpr & Hsr).
    exists r. split; [done|]. split; [|by apply Hsr].
    rewrite <- Hpr. by constructor.
Qed.

Lemma insert_by_start_Ret_inv (aw : bool) (x y : ParsedTariff)
  (l r : list ParsedTariff) :
  insert_by_start x (y :: l) = Ret r → is_aware (start y) = aw →
  is_aware (start x) = aw.
Proof.
  simpl. intros H Hy. bind_inv H. apply dt_lt_Ret_inv in Hstep. congruence.
Qed.

(** The sort returns exactly when the start times are of one kind. *)
Lemma sort_by_start_Ret_inv (l r : list ParsedTariff) :
  sort_by_start l = Ret r → ∃ aw, uniform aw l.
Proof.
  revert r. induction l as [|x l IH]; intros r H.
  - exists true. constructor.
  - simpl in H. bind_inv H. destruct (IH _ Hstep) as [aw Hu].
    destruct (sort_by_start_uniform aw l Hu) as (s & Hs & Hp & _).
    rewrite Hs in Hstep. injection Hstep as <-.
    destruct s as [|y s].
    + apply Permutation_nil_r in Hp as ->.
      exists (is_aware (start x)). by repeat constructor.
    + exists aw. constructor; [|done].
      eapply insert_by_start_Ret_inv; [exact H|].
      pose proof (uniform_perm _ _ _ Hp Hu) as Hu'.
      by apply Forall_inv in Hu'.
Qed.

Lemma sort_by_start_Ret (l r : list ParsedTariff) :
  sort_by_start l = Ret r → Permutation l r ∧ sorted_by_start r.
Proof.
  intros H. destruct (sort_by_start_Ret_inv _ _ H) as [aw Hu].
  destruct (sort_by_start_uniform aw l Hu) as (s & Hs & Hp & Hsorted).
  rewrite Hs in H. by injection H as <-.
Qed.

(** A list with both kinds of start time makes the sort raise. *)
Lemma sort_by_start_mixed (l : list ParsedTariff) (a b : ParsedTariff) :
  a ∈ l → b ∈ l → is_aware (start a) ≠ is_aware (start b) →
  sort_by_start l = Raise TypeError.
Proof.
  intros Ha Hb Hne.
  destruct (sort_by_start l) as [r|e] eqn:E.
  - destruct (sort_by_start_Ret_inv _ _ E) as [aw Hu].
    unfold uniform in Hu. rewrite Forall_forall in Hu.
    pose proof (Hu a Ha). pose proof (Hu b Hb). congruence.
  - f_equal. clear Ha Hb Hne a b. revert e E.
    induction l as [|x l IH]; intros e E; [discriminate|].
    simpl in E. destruct (sort_by_start l) as [s|e'] eqn:Es.
    + simpl in E. clear IH Es. revert e E.
      induction s as [|y s IHs]; intros e E; [discriminate|].
      simpl in E. unfold dt_lt, dt_compare in E.
      destruct (tzinfo (start y)), (tzinfo (start x)); simpl in E;
        try (by injection E);
        match type of E with
        | (if ?c then _ else _) = _ => destruct c; [|discriminate]
        end;
        (destruct (insert_by_start x s) eqn:Ei; [discriminate|];
         simpl in E; injection E as <-; by apply IHs).
    + simpl in E. injection E as <-. by apply IH.
Qed.

(** The only exception of the sort is the [TypeError] of a comparison
    between a naive and an aware start. *)
Lemma sort_by_start_Raise (l : list ParsedTariff) (e : exn) :
  sort_by_start l = Raise e →
  e = TypeError
  ∧ ∃ a b, a ∈ l ∧ b ∈ l ∧ is_aware (start a) ≠ is_aware (start b).
Proof.
  intros H. destruct l as [|x l]; [discriminate|].
  destruct (decide (uniform (is_aware (start x)) (x :: l))) as [Hu|Hn].
  - destruct (sort_by_start_uniform _ _ Hu) as (r & Hr & _). congruence.
  - unfold uniform in Hn. apply not_Forall_Exists in Hn; [|apply _].
    apply Exists_exists in Hn as (b & Hb & Hne).
    assert (Hx : x ∈ x :: l) by left.
    assert (Hm : is_aware (start x) ≠ is_aware (start b)) by congruence.
    pose proof (sort_by_start_mixed _ _ _ Hx Hb Hm) as HT.
    split; [congruence|]. by exists x, b.
Qed.

Section ParserSpec.

Variable date_fromisoformat : string → option date.
Variable datetime_fromisoformat : string → option datetime.

Abbreviation is_complete := (is_complete datetime_fromisoformat).
Abbreviation emitted_from := (emitted_from datetime_fromisoformat).
Abbreviation recorded_day := (recorded_day date_fromisoformat).
Abbreviation structural_failure :=
  (structural_failure datetime_fromisoformat).
Abbreviation parse_tariff := (parse_tariff datetime_fromisoformat).
Abbreviation parse_tariffs := (parse_tariffs datetime_fromisoformat).
Abbreviation parse_electricity := (parse_electricity datetime_fromisoformat).
Abbreviation parse := (parse date_fromisoformat datetime_fromisoformat).

(** *** One entry *)

Lemma parse_tariff_incomplete (t : json) :
  is_complete t = false → parse_tariff t = Ret None.
Proof.
  unfold is_complete, parse_tariff, is_number.
  destruct t as [| | | | |?|m]; try done.
  destruct (get m "startDateTime") as [| | | |ss| |] eqn:Es;
    destruct (get m "endDateTime") as [| | | |es| |] eqn:Ee;
    destruct (get m "totalAmount") as [| | | | | |] eqn:Et;
    try done;
    destruct (datetime_fromisoformat ss) as [sd|] eqn:Hs;
    destruct (datetime_fromisoformat es) as [ed|] eqn:He;
    try done; simpl;
    destruct (group_amounts (get m "groups")) as [[? ?] ?];
    try done; simpl;
    rewrite !bool_decide_eq_true_2 by eauto; done.
Qed.

Lemma parse_tariff_Some (t : json) (p : ParsedTariff) :
  parse_tariff t = Ret (Some p) → is_complete t = true ∧ emitted_from t p.
Proof.
  intros H.
  destruct (is_complete t) eqn:Ec;
    [|rewrite (parse_tariff_incomplete _ Ec) in H; discriminate].
  split; [done|].
  unfold parse_tariff in H. destruct t as [| | | | |?|m]; try discriminate.
  destruct (get m "startDateTime") as [| | | |ss| |] eqn:Es;
    destruct (get m "endDateTime") as [| | | |es| |] eqn:Ee;
    destruct (get m "totalAmount") as [| | | | | |] eqn:Et;
    try discriminate;
    destruct (datetime_fromisoformat ss) as [sd|] eqn:Hs;
    destruct (datetime_fromisoformat es) as [ed|] eqn:He;
    try discriminate;
    destruct (group_amounts (get m "groups")) as [[mk fe] tx];
    simpl in H; try discriminate;
    (repeat (bind_inv H);
     injection H as <-;
     exists m, ss, es; eexists;
     rewrite Et; simpl; repeat split; eauto).
Qed.

(** A complete entry is emitted unless a conversion to [float]
    overflows. *)
Lemma parse_tariff_complete (t : json) :
  is_complete t = true →
  (∃ p, parse_tariff t = Ret (Some p))
  ∨ parse_tariff t = Raise OverflowError.
Proof.
  intros Hc. destruct (parse_tariff t) as [[p|]|e] eqn:E; [eauto| |].
  - exfalso. revert Hc E. unfold is_complete, parse_tariff, is_number.
    destruct t as [| | | | |?|m]; try done.
    destruct (get m "startDateTime") as [| | | |ss| |];
      destruct (get m "endDateTime") as [| | | |es| |];
      try done.
    destruct (datetime_fromisoformat ss), (datetime_fromisoformat es);
      rewrite ?andb_false_r; simpl;
      try (rewrite bool_decide_eq_false_2 by (by intros [? ?])); try done.
    all: destruct (group_amounts (get m "groups")) as [[mk fe] tx].
    all: destruct (get m "totalAmount"); simpl; try done.
    all: intros _ H; repeat (bind_inv H); discriminate.
  - right. f_equal. revert E. unfold parse_tariff.
    assert (Hf : ∀ n f, float_of_number n = Raise f → f = OverflowError).
    { intros [[]|z|f] f'; simpl; unfold float_of_int;
        repeat case_match; congruence. }
    assert (Hg : ∀ o f, float_or_none o = Raise f → f = OverflowError).
    { intros [n|] f'; simpl; [|discriminate].
      destruct (float_of_number n) eqn:En; [discriminate|].
      simpl. intros [= <-]. eauto. }
    repeat case_match; try discriminate; simpl.
    all: repeat match goal with
         | |- context [float_of_number ?n] =>
             let E := fresh in
             destruct (float_of_number n) eqn:E;
             [simpl | apply Hf in E; simpl; congruence]
         | |- context [float_or_none ?o] =>
             let E := fresh in
             destruct (float_or_none o) eqn:E;
             [simpl | apply Hg in E; simpl; congruence]
         end.
    all: discriminate.
Qed.

(** *** The loop over the entries *)

Lemma parse_tariffs_cons_incomplete (t : json) (rest : list json) :
  is_complete t = false → parse_tariffs (t :: rest) = parse_tariffs rest.
Proof.
  intros H. simpl. rewrite (parse_tariff_incomplete _ H). simpl.
  by destruct (parse_tariffs rest).
Qed.

Lemma parse_tariffs_skip (pre post : list json) (bad : json) :
  is_complete bad = false →
  parse_tariffs (pre ++ bad :: post) = parse_tariffs (pre ++ post).
Proof.
  intros H. induction pre as [|t pre IH]; simpl.
  - by apply parse_tariffs_cons_incomplete.
  - fold (parse_tariffs (pre ++ bad :: post)). by rewrite IH.
Qed.

Lemma parse_tariffs_none_survive (raw : list json) :
  Forall (λ t, is_complete t = false) raw → parse_tariffs raw = Ret [].
Proof.
  induction 1 as [|t raw Ht _ IH]; [done|].
  by rewrite parse_tariffs_cons_incomplete.
Qed.

(** The loop emits one tariff for each complete entry, in the order of
    the entries. *)
Lemma parse_tariffs_Ret (raw : list json) (parsed : list ParsedTariff) :
  parse_tariffs raw = Ret parsed →
  Forall2 emitted_from (List.filter is_complete raw) parsed.
Proof.
  revert parsed. induction raw as [|t raw IH]; intros parsed H.
  - injection H as <-. constructor.
  - simpl in H. bind_inv H. bind_inv H. injection H as <-.
    destruct a as [p|].
    + apply parse_tariff_Some in Hstep as [Hc He].
      simpl. rewrite Hc. constructor; [done | by apply IH].
    + destruct (is_complete t) eqn:Hc.
      * destruct (parse_tariff_complete _ Hc) as [[p Hp]|Hp]; congruence.
      * simpl. rewrite Hc. by apply IH.
Qed.

(** *** The chosen day's electricity *)

Lemma parse_electricity_Some (d : date) (el : gmap string json)
  (data : EssentDayData) :
  parse_electricity d el = Ret (Some data) →
  ∃ raw parsed,
    get el "tariffs" = JList raw
    ∧ parse_tariffs raw = Ret parsed
    ∧ sort_by_start parsed = Ret (tariffs data)
    ∧ tariffs data ≠ []
    ∧ day data = d
    ∧ vat_percentage data = as_number (get el "vatPercentage")
    ∧ (∀ u, unit_of_measurement data = Some u
            ↔ get el "unitOfMeasurement" = JStr u).
Proof.
  unfold parse_electricity. intros H.
  destruct (get el "tariffs") as [| | | | |raw|]; try discriminate.
  destruct raw as [|t raw]; [discriminate|].
  bind_inv H. destruct a as [|p parsed]; [discriminate|].
  bind_inv H. injection H as <-. simpl.
  exists (t :: raw), (p :: parsed). repeat split; try done.
  - intros ->. apply sort_by_start_Ret in Hstep0 as [Hp _].
    by apply Permutation_nil_r in Hp.
  - destruct (get el "unitOfMeasurement"); congruence.
  - intros ->. done.
Qed.

(** The day handed to [parse_electricity] only ends up in the [day]
    field: it decides neither success nor the tariffs. *)
Lemma parse_electricity_day (d d' : date) (el : gmap string json) :
  parse_electricity d el = with_day d (parse_electricity d' el).
Proof.
  unfold parse_electricity.
  destruct (get el "tariffs") as [| | | | |[|t raw]|]; try done.
  destruct (parse_tariffs (t :: raw)) as [[|p parsed]|e]; try done.
  unfold mbind, outcome_bind; cbn beta iota.
  by destruct (sort_by_start (p :: parsed)).
Qed.

(** *** The whole parse *)

Lemma parse_unfold (payload : json) (today : date) :
  parse payload today =
  match chosen_day payload today with
  | Some c =>
      match get c "electricity" with
      | JDict el => parse_electricity (parse_day date_fromisoformat
                                         (get c "date") today) el
      | _ => Ret None
      end
  | None => Ret None
  end.
Proof.
  unfold parse, chosen_day, prices_of.
  destruct payload as [| | | | | |p]; try done.
  destruct (get p "prices") as [| | | | |[|e es]|]; try done.
Qed.

Lemma parse_Some (payload : json) (today : date) (data : EssentDayData) :
  parse payload today = Ret (Some data) →
  ∃ c el raw parsed,
    chosen_day payload today = Some c
    ∧ chosen_electricity payload today = Some el
    ∧ chosen_tariffs payload today = Some raw
    ∧ parse_tariffs raw = Ret parsed
    ∧ sort_by_start parsed = Ret (tariffs data)
    ∧ day data = parse_day date_fromisoformat (get c "date") today.
Proof.
  rewrite parse_unfold. unfold chosen_tariffs, chosen_electricity.
  destruct (chosen_day payload today) as [c|]; [|discriminate].
  destruct (get c "electricity") as [| | | | | |el]; try discriminate.
  intros H. apply parse_electricity_Some in H
    as (raw & parsed & Hraw & Hp & Hs & _ & Hd & _).
  exists c, el, raw, parsed. rewrite Hraw. done.
Qed.

Lemma parse_day_recorded (c : gmap string json) (today : date) :
  recorded_day c today (parse_day date_fromisoformat (get c "date") today).
Proof.
  unfold parse_day. destruct (get c "date") as [| | | |s| |] eqn:E;
    try (apply day_absent; congruence).
  destruct (date_fromisoformat s) as [d|] eqn:Ed; simpl.
  - by eapply day_parsed.
  - by eapply day_unparsable.
Qed.

(** *** The exceptions of the parse *)

Lemma parse_tariff_Raise (t : json) (e : exn) :
  parse_tariff t = Raise e → e = OverflowError.
Proof.
  intros H. destruct (is_complete t) eqn:Hc.
  - destruct (parse_tariff_complete _ Hc) as [[p Hp]|Hp]; congruence.
  - rewrite (parse_tariff_incomplete _ Hc) in H. discriminate.
Qed.

Lemma parse_tariffs_Raise (raw : list json) (e : exn) :
  parse_tariffs raw = Raise e → e = OverflowError.
Proof.
  induction raw as [|t raw IH]; [discriminate|]. simpl.
  destruct (parse_tariff t) as [r|e'] eqn:Et; simpl.
  - destruct (parse_tariffs raw) as [rs|e'']; simpl; [discriminate|].
    intros [= <-]. by apply IH.
  - intros [= <-]. by eapply parse_tariff_Raise.
Qed.

(** X1.  The parse raises in two ways only: a conversion to [float]
    overflows in the loop, or the loop returns tariffs with naive and aware
    start times and the sort compares two of them. *)
Lemma parse_Raise (payload : json) (today : date) (e : exn) :
  parse payload today = Raise e →
  ∃ raw,
    chosen_tariffs payload today = Some raw
    ∧ ((e = OverflowError ∧ parse_tariffs raw = Raise OverflowError)
       ∨ (e = TypeError
          ∧ ∃ parsed a b,
              parse_tariffs raw = Ret parsed
              ∧ a ∈ parsed ∧ b ∈ parsed
              ∧ is_aware (start a) ≠ is_aware (start b))).
Proof.
  rewrite parse_unfold. unfold chosen_tariffs, chosen_electricity.
  destruct (chosen_day payload today) as [c|]; [|discriminate].
  destruct (get c "electricity") as [| | | | | |el]; try discriminate.
  unfold parse_electricity.
  destruct (get el "tariffs") as [| | | | |raw|]; try discriminate.
  destruct raw as [|t raw]; [discriminate|].
  intros H. exists (t :: raw). split; [done|].
  destruct (parse_tariffs (t :: raw)) as [parsed|e'] eqn:Ep.
  - right. unfold mbind, outcome_bind in H; cbn beta iota in H.
    destruct parsed as [|p parsed]; [discriminate|].
    destruct (sort_by_start (p :: parsed)) as [s|e''] eqn:Es; [discriminate|].
    injection H as <-.
    apply sort_by_start_Raise in Es as (-> & a & b & Ha & Hb & Hne).
    split; [done|]. by exists (p :: parsed), a, b.
  - left. simpl in H. injection H as <-.
    pose proof (parse_tariffs_Raise _ _ Ep) as ->. done.
Qed.

(** *** Day selection *)

Lemma find_today_none (prices : list json) (iso : string) :
  Forall (λ e, ¬ dated iso e) prices → find_today prices iso = None.
Proof.
  induction 1 as [|e prices He _ IH]; [done|]. simpl.
  destruct e as [| | | | | |m]; try done.
  destruct (get m "date") as [| | | |s| |] eqn:Ed; try done.
  destruct (String.eqb_spec s iso) as [->|]; [|done].
  exfalso. apply He. by exists m.
Qed.

Lemma find_today_first (pre post : list json) (e : gmap string json)
  (iso : string) :
  Forall (λ e, ¬ dated iso e) pre → get e "date" = JStr iso →
  find_today (pre ++ JDict e :: post) iso = Some e.
Proof.
  intros Hpre He. induction Hpre as [|x pre Hx _ IH]; simpl.
  - by rewrite He, String.eqb_refl.
  - destruct x as [| | | | | |m]; try done.
    destruct (get m "date") as [| | | |s| |] eqn:Ed; try done.
    destruct (String.eqb_spec s iso) as [->|]; [|done].
    exfalso. apply Hx. by exists m.
Qed.

Lemma find_today_Some (prices : list json) (iso : string)
  (e : gmap string json) :
  find_today prices iso = Some e → JDict e ∈ prices ∧ get e "date" = JStr iso.
Proof.
  induction prices as [|x prices IH]; [done|]. simpl.
  assert (Hrest : find_today prices iso = Some e →
                  JDict e ∈ x :: prices ∧ get e "date" = JStr iso).
  { intros H. destruct (IH H). split; [by right | done]. }
  destruct x as [| | | | | |m]; try done.
  destruct (get m "date") as [| | | |s| |] eqn:Ed; try done.
  destruct (String.eqb_spec s iso) as [->|]; [|done].
  intros [= ->]. split; [by left | done].
Qed.

(** *** Group amounts *)










(** *** The parser's results *)

(** C1 (as amended).  When parsing succeeds, every tariff of the returned
    set was emitted from an entry of the chosen day's tariffs list: its
    [total] is the float conversion of that entry's numeric [totalAmount],
    and its [start] and [end_] are the parsed [startDateTime] and
    [endDateTime] of that entry.  No order between [start] and [end_] is
    part of the result. *)
Theorem parsed_tariffs_emitted (payload : json) (today : date)
  (data : EssentDayData) (t : ParsedTariff) :
  parse payload today = Ret (Some data) →
  t ∈ tariffs data →
  ∃ raw entry,
    chosen_tariffs payload today = Some raw
    ∧ entry ∈ raw
    ∧ emitted_from entry t.
Proof.
  intros H Ht.
  apply parse_Some in H as (c & el & raw & parsed & _ & _ & Hraw & Hp & Hs & _).
  apply sort_by_start_Ret in Hs as [Hperm _].
  rewrite <- Hperm in Ht.
  apply parse_tariffs_Ret in Hp.
  apply list_elem_of_lookup in Ht as [i Hi].
  destruct (Forall2_lookup_r _ _ _ _ _ Hp Hi) as (entry & He & Hem).
  exists raw, entry. split; [done|]. split; [|done].
  apply list_elem_of_lookup_2 in He.
  apply list_elem_of_In in He. apply filter_In in He as [He _].
  by apply list_elem_of_In.
Qed.


Lemma chosen_electricity_inv (payload : json) (today : date)
  (el : gmap string json) :
  chosen_electricity payload today = Some el →
  ∃ c, chosen_day payload today = Some c ∧ get c "electricity" = JDict el.
Proof.
  unfold chosen_electricity.
  destruct (chosen_day payload today) as [c|]; [|done].
  destruct (get c "electricity") as [| | | | | |el'] eqn:E; try done.
  intros [= ->]. eauto.
Qed.

Lemma structural_failure_no_data (payload : json) (today : date) :
  structural_failure payload today → parse payload today = Ret None.
Proof.
  intros H. rewrite parse_unfold.
  destruct H as [H|H|first rest H Hnone Hfirst|c H Hel|el H Ht|el H Ht|raw H Hraw].
  - unfold chosen_day. by rewrite H.
  - unfold chosen_day. by rewrite H.
  - unfold chosen_day, select_day. rewrite H.
    rewrite (find_today_none _ _ Hnone).
    destruct first; try done. by destruct (Hfirst m).
  - rewrite H. destruct (get c "electricity") eqn:E; try done.
    by destruct (Hel m).
  - apply chosen_electricity_inv in H as (c & -> & ->).
    unfold parse_electricity.
    destruct (get el "tariffs") eqn:E; try done. by destruct (Ht l).
  - apply chosen_electricity_inv in H as (c & -> & ->).
    unfold parse_electricity. by rewrite Ht.
  - unfold chosen_tariffs in H.
    destruct (chosen_electricity payload today) as [el|] eqn:Hel; [|done].
    apply chosen_electricity_inv in Hel as (c & -> & ->).
    unfold parse_electricity.
    destruct (get el "tariffs") as [| | | | |l|]; try done.
    injection H as ->. destruct raw as [|t raw]; [done|].
    by rewrite (parse_tariffs_none_survive _ Hraw).
Qed.

(** C7.  Every structural failure of the payload (["prices"] missing, not a
    list or empty; no entry dated today and a first entry that is not an
    object; no ["electricity"] object; ["tariffs"] missing, not a list or
    empty; no complete entry) makes the whole parse return no data, while an
    entry that is not complete is skipped: the loop, and with it the parse
    of the day, gives what it gives without that entry. *)
Theorem structural_failures_and_skips :
  (∀ payload today,
     structural_failure payload today → parse payload today = Ret None)
  ∧ (∀ pre bad post,
       is_complete bad = false →
       parse_tariffs (pre ++ bad :: post) = parse_tariffs (pre ++ post))
  ∧ (∀ d el pre bad post,
       is_complete bad = false →
       parse_electricity d (<["tariffs" := JList (pre ++ bad :: post)]> el)
       = parse_electricity d (<["tariffs" := JList (pre ++ post)]> el)).
Proof.
  split; [exact structural_failure_no_data|].
  split; [intros pre bad post; apply parse_tariffs_skip|].
  intros d el pre bad post Hbad. unfold parse_electricity, get.
  rewrite !lookup_insert_eq, !lookup_insert_ne by done. simpl.
  pose proof (parse_tariffs_skip pre post bad Hbad) as Hskip.
  destruct pre as [|x pre]; simpl app in *.
  - destruct post as [|y post]; rewrite Hskip; done.
  - rewrite Hskip. done.
Qed.

(** C8.  Day selection picks the first entry of ["prices"] that is an
    object whose ["date"] is today's ISO date; when there is none it picks
    the first entry if that is an object, and otherwise the parse returns
    no data.  The day of the result is the chosen entry's ["date"] parsed,
    or [today] when that string is absent or does not parse; this choice
    never fails the parse, whose outcome is that of the chosen day's
    electricity with the day filled in. *)
Theorem day_selection (payload : json) (today : date) (prices : list json) :
  prices_of payload = Some prices →
  (∀ pre e post,
     prices = (pre ++ JDict e :: post)%list →
     Forall (λ x, ¬ dated (isoformat today) x) pre →
     get e "date" = JStr (isoformat today) →
     chosen_day payload today = Some e)
  ∧ (Forall (λ x, ¬ dated (isoformat today) x) prices →
     chosen_day payload today =
       match prices with JDict first :: _ => Some first | _ => None end)
  ∧ (chosen_day payload today = None → parse payload today = Ret None)
  ∧ (∀ c, chosen_day payload today = Some c →
       ∃ d, recorded_day c today d
            ∧ parse payload today =
                match get c "electricity" with
                | JDict el => with_day d (parse_electricity today el)
                | _ => Ret None
                end)
  ∧ (∀ data, parse payload today = Ret (Some data) →
       ∃ c, chosen_day payload today = Some c
            ∧ recorded_day c today (day data)).
Proof.
  intros Hprices. unfold chosen_day. rewrite Hprices.
  split; [|split; [|split; [|split]]].
  - intros pre e post -> Hpre He. unfold select_day.
    by rewrite (find_today_first _ _ _ _ Hpre He).
  - intros Hnone. unfold select_day. by rewrite (find_today_none _ _ Hnone).
  - intros Hc. rewrite parse_unfold. unfold chosen_day.
    by rewrite Hprices, Hc.
  - intros c Hc. eexists. split; [apply parse_day_recorded|].
    rewrite parse_unfold. unfold chosen_day. rewrite Hprices, Hc.
    destruct (get c "electricity"); try done.
    apply parse_electricity_day.
  - intros data H.
    apply parse_Some in H as (c & el & raw & parsed & Hc & _ & _ & _ & _ & Hd).
    unfold chosen_day in Hc. rewrite Hprices in Hc.
    exists c. split; [done|]. rewrite Hd. apply parse_day_recorded.
Qed.




End ParserSpec.

(** ** The tariff queries *)

Lemma start_le_refl (t : ParsedTariff) : start_le t t.
Proof. apply start_le_instant. split; [done | lia]. Qed.

Lemma sorted_uniform (first : ParsedTariff) (rest : list ParsedTariff) :
  sorted_by_start (first :: rest) →
  uniform (is_aware (start first)) (first :: rest).
Proof.
  intros H. apply StronglySorted_inv in H as [_ H].
  constructor; [done|].
  eapply Forall_impl; [exact H|]. simpl. intros t Ht.
  apply start_le_instant in Ht as [Ht _]. done.
Qed.

(** A sorted list is its own sorted copy. *)
Lemma sort_by_start_sorted (l : list ParsedTariff) :
  sorted_by_start l → sort_by_start l = Ret l.
Proof.
  induction l as [|x l IH]; intros H; [done|].
  pose proof (StronglySorted_inv H) as [Hl Hx].
  simpl. rewrite (IH Hl). simpl.
  destruct l as [|y l]; [done|]. simpl.
  apply Forall_inv in Hx. apply start_le_instant in Hx as [Haw Hle].
  rewrite dt_lt_same by done. simpl.
  by rewrite (proj2 (Z.ltb_ge _ _) Hle).
Qed.

Lemma normalize_now_aware (reference now : datetime) :
  is_aware (normalize_now (tzinfo reference) now) = is_aware reference.
Proof.
  unfold normalize_now, is_aware.
  destruct (tzinfo reference); [|done].
  destruct (tzinfo now) eqn:E; simpl; [by rewrite E | done].
Qed.

(** In a sorted list the first element with a property is the earliest
    one with it. *)
Lemma sorted_first_earliest (P : ParsedTariff → Prop)
  (pre post : list ParsedTariff) (r : ParsedTariff) :
  sorted_by_start (pre ++ r :: post) →
  (∀ t, t ∈ pre → ¬ P t) → P r →
  earliest_among P (pre ++ r :: post) r.
Proof.
  intros Hs Hpre Hr. split; [|split; [done|]].
  - apply elem_of_app. right. by left.
  - intros t Ht HP. apply elem_of_app in Ht as [Ht|Ht].
    + by destruct (Hpre t Ht).
    + apply elem_of_cons in Ht as [->|Ht]; [apply start_le_refl|].
      unfold sorted_by_start in Hs.
      apply StronglySorted_app_1_r, StronglySorted_cons in Hs as [Hall _].
      rewrite Forall_forall in Hall. by apply Hall.
Qed.

Lemma sorted_last_latest (l : list ParsedTariff) (r : ParsedTariff) :
  sorted_by_start l → last l = Some r → latest l r.
Proof.
  intros Hs Hl. apply last_Some in Hl as [pre ->].
  split; [apply elem_of_app; right; by left|].
  intros t Ht. apply elem_of_app in Ht as [Ht|Ht].
  - eapply StronglySorted_app_1_elem_of; [exact Hs | exact Ht | by left].
  - apply list_elem_of_singleton in Ht as ->. apply start_le_refl.
Qed.

Lemma first_starting_after_split (aw : bool) (m : datetime)
  (l : list ParsedTariff) :
  uniform aw l → is_aware m = aw →
  (first_starting_after m l = Ret None ∧ ∀ t, t ∈ l → ¬ starts_after m t)
  ∨ (∃ pre r post,
       l = (pre ++ r :: post)%list
       ∧ first_starting_after m l = Ret (Some r)
       ∧ (∀ t, t ∈ pre → ¬ starts_after m t)
       ∧ starts_after m r).
Proof.
  intros Hu Hm. induction Hu as [|x l Hx Hu IH]; simpl.
  - left. split; [done|]. intros t Ht. by apply elem_of_nil in Ht.
  - rewrite dt_gt_same by congruence. simpl.
    destruct (instant m <? instant (start x)) eqn:E.
    + right. exists [], x, l. repeat split; try done.
      * intros t Ht. by apply elem_of_nil in Ht.
      * unfold starts_after. rewrite dt_gt_same by congruence. by rewrite E.
    + assert (Hnx : ¬ starts_after m x).
      { unfold starts_after. rewrite dt_gt_same by congruence.
        rewrite E. discriminate. }
      destruct IH as [[-> Hnone]|(pre & r & post & -> & -> & Hpre & Hr)].
      * left. split; [done|]. intros t Ht.
        apply elem_of_cons in Ht as [->|Ht]; [done | by apply Hnone].
      * right. exists (x :: pre), r, post. repeat split; try done.
        intros t Ht. apply elem_of_cons in Ht as [->|Ht]; [done|by apply Hpre].
Qed.

Lemma first_on_later_day_split (today : date) (l : list ParsedTariff) :
  (first_on_later_day today l = None
   ∧ ∀ t, t ∈ l → date_gt (date_of (start t)) today ≠ true)
  ∨ (∃ pre r post,
       l = (pre ++ r :: post)%list
       ∧ first_on_later_day today l = Some r
       ∧ (∀ t, t ∈ pre → date_gt (date_of (start t)) today ≠ true)
       ∧ date_gt (date_of (start r)) today = true).
Proof.
  induction l as [|x l IH]; simpl.
  - left. split; [done|]. intros t Ht. by apply elem_of_nil in Ht.
  - destruct (date_gt (date_of (start x)) today) eqn:E.
    + right. exists [], x, l. repeat split; try done.
      intros t Ht. by apply elem_of_nil in Ht.
    + destruct IH as [[-> Hnone]|(pre & r & post & -> & -> & Hpre & Hr)].
      * left. split; [done|]. intros t Ht.
        apply elem_of_cons in Ht as [->|Ht]; [congruence | by apply Hnone].
      * right. exists (x :: pre), r, post. repeat split; try done.
        intros t Ht.
        apply elem_of_cons in Ht as [->|Ht]; [congruence | by apply Hpre].
Qed.


Lemma find_next_tariff_sorted (data : EssentDayData) (now : datetime)
  (first : ParsedTariff) (rest : list ParsedTariff) :
  tariffs data = first :: rest →
  sorted_by_start (tariffs data) →
  ∃ r, _find_next_tariff data now = Ret (Some r)
       ∧ next_tariff (tariffs data)
           (normalize_now (tzinfo (start first)) now) r.
Proof.
  intros Ht Hs.
  unfold _find_next_tariff.
  rewrite (sort_by_start_sorted _ Hs). rewrite Ht in *.
  cbn beta iota zeta delta [mbind outcome_bind].
  set (m := normalize_now (tzinfo (start first)) now).
  pose proof (sorted_uniform _ _ Hs) as Hu.
  pose proof (normalize_now_aware (start first) now) as Hm. fold m in Hm.
  destruct (first_starting_after_split _ m _ Hu Hm)
    as [[Hf Hnone]|(pre & r & post & Heq & Hf & Hpre & Hr)].
  - rewrite Hf. cbn beta iota.
    destruct (first_on_later_day_split (date_of m) (first :: rest))
      as [[Hd Hnoday]|(pre & r & post & Heq & Hd & Hpre & Hr)].
    + rewrite Hd.
      destruct (last (first :: rest)) as [r|] eqn:Hl.
      * exists r. split; [done|]. apply next_last; try done.
        by apply sorted_last_latest.
      * by apply last_None in Hl.
    + rewrite Hd. exists r. split; [done|].
      apply next_later_day; [done|]. rewrite Heq in Hs |- *.
      by apply sorted_first_earliest.
  - rewrite Hf. cbn beta iota. exists r. split; [done|].
    apply next_after. rewrite Heq in Hs |- *.
    by apply sorted_first_earliest.
Qed.


(** X10.  Where the moment is of the kind of every start and end of the
    set, [_find_tariff_for_moment] is the plain scan: it returns the first
    tariff in stored order with [start <= moment < end_], or no match. *)
Lemma find_tariff_for_moment_comparable (data : EssentDayData)
  (moment : datetime) :
  Forall (λ t, is_aware (start t) = is_aware moment
               ∧ is_aware (end_ t) = is_aware moment) (tariffs data) →
  _find_tariff_for_moment data moment =
  Ret (List.find (covers_instant moment) (tariffs data)).
Proof.
  unfold _find_tariff_for_moment.
  induction 1 as [|t l [Hs He] _ IH]; [done|].
  simpl. unfold covers, covers_instant.
  rewrite dt_le_same by done. cbn [mbind outcome_bind].
  destruct (instant (start t) <=? instant moment); simpl; [|done].
  rewrite dt_lt_same by done. cbn [mbind outcome_bind].
  by destruct (instant moment <? instant (end_ t)).
Qed.

(** C10.  [_find_tariff_for_moment] does not normalize its moment: on a
    set whose first tariff starts with the other kind of timestamp (naive
    against an aware moment, or aware against a naive one) the comparison
    raises [TypeError] instead of returning no match, and so does the
    "now" sensor, which passes it the aware local time, while
    [_find_next_tariff] on the same set and moment returns a tariff. *)
Theorem find_tariff_for_moment_mixed (data : EssentDayData)
  (moment : datetime) (first : ParsedTariff) (rest : list ParsedTariff) :
  tariffs data = first :: rest →
  is_aware (start first) ≠ is_aware moment →
  _find_tariff_for_moment data moment = Raise TypeError
  ∧ EssentNowPriceSensor_native_value (Some data) moment = Raise TypeError
  ∧ (sorted_by_start (tariffs data) →
     ∃ r, _find_next_tariff data moment = Ret (Some r)).
Proof.
  intros Ht Hne.
  assert (H : _find_tariff_for_moment data moment = Raise TypeError).
  { unfold _find_tariff_for_moment. rewrite Ht. simpl. unfold covers.
    by rewrite dt_le_mixed. }
  split; [done|]. split.
  - simpl. by rewrite H.
  - intros Hs.
    destruct (find_next_tariff_sorted data moment first rest Ht Hs)
      as (r & Hr & _).
    by exists r.
Qed.

(** The "next hour" sensor has a value whenever the coordinator holds a
    day set. *)
Lemma next_hour_sensor_value (data : EssentDayData) (now : datetime)
  (first : ParsedTariff) (rest : list ParsedTariff) :
  tariffs data = first :: rest →
  sorted_by_start (tariffs data) →
  ∃ r, r ∈ tariffs data
       ∧ EssentNextHourPriceSensor_native_value (Some data) now
         = Ret (Some (total r)).
Proof.
  intros Ht Hs.
  destruct (find_next_tariff_sorted data now first rest Ht Hs)
    as (r & Hr & Hnext).
  exists r. split.
  - destruct Hnext as [[H _]|_ [H _]|_ _ [H _]]; exact H.
  - simpl. by rewrite Hr.
Qed.

(** ** The refresh *)

Section RefreshSpec.

Variable date_fromisoformat : string → option date.
Variable datetime_fromisoformat : string → option datetime.

Abbreviation update :=
  (_async_update_data date_fromisoformat datetime_fromisoformat).
Abbreviation refresh :=
  (async_refresh date_fromisoformat datetime_fromisoformat).
Abbreviation failed_update := (failed_update datetime_fromisoformat).

Lemma failed_update_no_data (fetch : option json) (today : date) :
  failed_update fetch today → update fetch today = Ret None.
Proof.
  intros [->|(payload & -> & H)]; [done|].
  simpl. by apply structural_failure_no_data.
Qed.

(** C3 (as amended).  A failed fetch or a failed parse makes the update
    return the absent value, and the refresh stores it: the coordinator's
    data is absent afterwards, whatever set it held before.  After a
    refresh the data is a set only if this update parsed that set, or if
    the update raised and the set was already there. *)
Theorem failed_refresh_stores_no_data (c : coordinator)
  (fetch : option json) (today : date) :
  (failed_update fetch today →
   update fetch today = Ret None ∧ data (refresh c fetch today) = None)
  ∧ (∀ d, data (refresh c fetch today) = Some d →
       (∃ payload, fetch = Some payload
                   ∧ parse date_fromisoformat datetime_fromisoformat
                       payload today = Ret (Some d))
       ∨ (data c = Some d ∧ ∃ e, update fetch today = Raise e)).
Proof.
  split.
  - intros H. apply failed_update_no_data in H. split; [done|].
    unfold async_refresh. by rewrite H.
  - intros d. unfold async_refresh.
    destruct (update fetch today) as [r|e] eqn:E; simpl.
    + intros ->. left. destruct fetch as [payload|]; [|discriminate].
      by exists payload.
    + intros H. right. split; [done | by exists e].
Qed.

End RefreshSpec.

(** ** Concrete runs *)

(** Scenario A: no entry is dated today, the first entry is chosen and
    its date is recorded. *)
Example parse_naive_payload :
  update_ext (Some naive_payload) (Date 2024 1 2) = Ret (Some naive_day).
Proof. vm_compute. reflexivity. Qed.

Lemma naive_day_sorted : sorted_by_start (tariffs naive_day).
Proof. repeat constructor. Qed.

Example parse_backwards_payload :
  update_ext (Some backwards_payload) (Date 2024 1 2) =
  Ret (Some {| day := Date 2024 1 1;
               vat_percentage := Some (NInt 21);
               unit_of_measurement := Some "kWh";
               tariffs := [backwards_tariff] |}).
Proof. vm_compute. reflexivity. Qed.

(** C1, counterexample.  The payload [backwards_payload] parses, and the
    tariff of the returned set does not satisfy [start < end_]. *)
Lemma start_before_end_fails :
  ¬ (∀ payload today data t,
       parse date_fromisoformat_ext datetime_fromisoformat_ext payload today
         = Ret (Some data) →
       t ∈ tariffs data →
       dt_lt (start t) (end_ t) = Ret true).
Proof.
  intros H.
  specialize (H backwards_payload (Date 2024 1 2) _ backwards_tariff
                parse_backwards_payload).
  simpl in H. specialize (H ltac:(by left)). vm_compute in H. discriminate.
Qed.

(** C2, the failing inputs evaluated.  On [mixed_payload] the sort of line
    161 compares a naive with an aware start and the update raises
    [TypeError]; on [huge_total_payload] the conversion of line 150 raises
    [OverflowError].  Neither is a set or the absent value. *)
Theorem update_raises :
  update_ext (Some mixed_payload) (Date 2024 1 2) = Raise TypeError
  ∧ update_ext (Some huge_total_payload) (Date 2024 1 2) = Raise OverflowError.
Proof. split; vm_compute; reflexivity. Qed.

(** C5, the failing input evaluated.  The first tariff of [naive_day]
    runs from 00:00 to 01:00 and the moment is 00:30 local time, aware:
    the scan raises [TypeError] and returns neither that tariff nor no
    match. *)
Theorem find_tariff_for_moment_raises :
  _find_tariff_for_moment naive_day aware_now = Raise TypeError
  ∧ _find_tariff_for_moment naive_day (replace_tzinfo aware_now None)
    = Ret (head (tariffs naive_day)).
Proof. split; vm_compute; reflexivity. Qed.

(** C3, counterexample.  A coordinator that holds [naive_day] and whose
    next fetch fails holds no data afterwards. *)
Lemma failed_refresh_keeps_data_fails :
  ¬ (∀ c fetch today,
       failed_update datetime_fromisoformat_ext fetch today →
       data (async_refresh date_fromisoformat_ext datetime_fromisoformat_ext
               c fetch today) = data c).
Proof.
  intros H.
  specialize (H {| data := Some naive_day; last_update_success := true |}
                None (Date 2024 1 2) ltac:(by left)).
  discriminate.
Qed.

(** ** The results at concrete inputs *)

(** [parsed_tariffs_emitted] on [naive_payload] and its first tariff. *)
Lemma parsed_tariffs_emitted_witness :
  parse date_fromisoformat_ext datetime_fromisoformat_ext naive_payload
    (Date 2024 1 2) = Ret (Some naive_day)
  ∧ first_hour ∈ tariffs naive_day
  ∧ ∃ raw entry,
      chosen_tariffs naive_payload (Date 2024 1 2) = Some raw
      ∧ entry ∈ raw
      ∧ emitted_from datetime_fromisoformat_ext entry first_hour.
Proof.
  assert (H1 : parse date_fromisoformat_ext datetime_fromisoformat_ext
                 naive_payload (Date 2024 1 2) = Ret (Some naive_day))
    by (vm_compute; reflexivity).
  assert (H2 : first_hour ∈ tariffs naive_day) by (simpl; left).
  split; [exact H1|]. split; [exact H2|].
  exact (parsed_tariffs_emitted _ _ _ _ _ _ H1 H2).
Defined.


(** [structural_failures_and_skips]: an empty object has no ["prices"],
    and an entry with a null total is skipped. *)
Lemma structural_failures_and_skips_witness :
  parse date_fromisoformat_ext datetime_fromisoformat_ext (JDict ∅)
    (Date 2024 1 2) = Ret None
  ∧ parse_tariffs datetime_fromisoformat_ext
      ([tariff_entry "2024-01-01T00:00:00" "2024-01-01T01:00:00" (JInt 1)]
       ++ tariff_entry "2024-01-01T01:00:00" "2024-01-01T02:00:00" JNull
       :: [])
    = parse_tariffs datetime_fromisoformat_ext
        ([tariff_entry "2024-01-01T00:00:00" "2024-01-01T01:00:00" (JInt 1)]
         ++ []).
Proof.
  destruct (structural_failures_and_skips date_fromisoformat_ext
              datetime_fromisoformat_ext) as (Hfail & Hskip & _).
  split.
  - apply Hfail. apply prices_missing. reflexivity.
  - apply Hskip. vm_compute. reflexivity.
Defined.

(** [day_selection], Scenario A: the day recorded is the first entry's. *)
Lemma day_selection_witness :
  prices_of naive_payload = Some [naive_entry]
  ∧ ∃ c, chosen_day naive_payload (Date 2024 1 2) = Some c
         ∧ recorded_day date_fromisoformat_ext c (Date 2024 1 2)
             (Date 2024 1 1).
Proof.
  assert (H : prices_of naive_payload = Some [naive_entry])
    by (vm_compute; reflexivity).
  split; [exact H|].
  destruct (day_selection date_fromisoformat_ext datetime_fromisoformat_ext
              naive_payload (Date 2024 1 2) [naive_entry] H)
    as (_ & _ & _ & _ & Hday).
  exact (Hday naive_day parse_naive_payload).
Defined.



(** [find_tariff_for_moment_mixed] on [naive_day] and an aware moment. *)
Lemma find_tariff_for_moment_mixed_witness :
  tariffs naive_day = first_hour :: [second_hour]
  ∧ is_aware (start first_hour) ≠ is_aware aware_now
  ∧ _find_tariff_for_moment naive_day aware_now = Raise TypeError
  ∧ EssentNowPriceSensor_native_value (Some naive_day) aware_now
    = Raise TypeError
  ∧ (sorted_by_start (tariffs naive_day) →
     ∃ r, _find_next_tariff naive_day aware_now = Ret (Some r)).
Proof.
  assert (H : is_aware (start first_hour) ≠ is_aware aware_now)
    by (simpl; discriminate).
  split; [reflexivity|]. split; [exact H|].
  exact (find_tariff_for_moment_mixed naive_day aware_now first_hour
           [second_hour] eq_refl H).
Defined.

(** [failed_refresh_stores_no_data]: a failed fetch after [naive_day]. *)
Lemma failed_refresh_stores_no_data_witness :
  failed_update datetime_fromisoformat_ext None (Date 2024 1 2)
  ∧ data (async_refresh date_fromisoformat_ext datetime_fromisoformat_ext
            {| data := Some naive_day; last_update_success := true |}
            None (Date 2024 1 2)) = None.
Proof.
  assert (H : failed_update datetime_fromisoformat_ext None (Date 2024 1 2))
    by (left; reflexivity).
  split; [exact H|].
  exact (proj2 (proj1 (failed_refresh_stores_no_data
                         date_fromisoformat_ext datetime_fromisoformat_ext
                         {| data := Some naive_day;
                            last_update_success := true |}
                         None (Date 2024 1 2)) H)).
Defined.

(** * Further properties of the parser *)

(** [parse_Raise] on [mixed_payload]. *)
Lemma parse_Raise_witness :
  parse date_fromisoformat_ext datetime_fromisoformat_ext mixed_payload
    (Date 2024 1 2) = Raise TypeError
  ∧ ∃ raw,
      chosen_tariffs mixed_payload (Date 2024 1 2) = Some raw
      ∧ ((TypeError = OverflowError
          ∧ parse_tariffs datetime_fromisoformat_ext raw
            = Raise OverflowError)
         ∨ (TypeError = TypeError
            ∧ ∃ parsed a b,
                parse_tariffs datetime_fromisoformat_ext raw = Ret parsed
                ∧ a ∈ parsed ∧ b ∈ parsed
                ∧ is_aware (start a) ≠ is_aware (start b))).
Proof.
  assert (H : parse date_fromisoformat_ext datetime_fromisoformat_ext
                mixed_payload (Date 2024 1 2) = Raise TypeError)
    by (vm_compute; reflexivity).
  split; [exact H|].
  exact (parse_Raise _ _ _ _ _ H).
Defined.

Lemma add_group_malformed (acc : gmap string json) (g : json) :
  malformed_group g → add_group acc g = acc.
Proof.
  unfold malformed_group, add_group. intros H.
  destruct g as [| | | | | |m]; try done.
  destruct (get m "type") as [| | | |ty| |] eqn:E; try done.
  by destruct (H m ty eq_refl).
Qed.

(** X2.  A malformed group (not an object, or without a string ["type"])
    is ignored: the amounts read from the groups are those read from the
    sequence without it. *)
Theorem malformed_group_ignored (pre post : list json) (g : json) :
  malformed_group g →
  group_by_type (pre ++ g :: post) = group_by_type (pre ++ post)
  ∧ group_amounts (JList (pre ++ g :: post))
    = group_amounts (JList (pre ++ post)).
Proof.
  intros H.
  assert (Hg : group_by_type (pre ++ g :: post) = group_by_type (pre ++ post)).
  { unfold group_by_type. rewrite !fold_left_app. simpl.
    by rewrite add_group_malformed. }
  split; [done|]. unfold group_amounts. by rewrite Hg.
Qed.

Lemma malformed_group_ignored_witness :
  malformed_group (JStr "TAX")
  ∧ group_by_type ([] ++ JStr "TAX" :: tax_groups)
    = group_by_type ([] ++ tax_groups)
  ∧ group_amounts (JList ([] ++ JStr "TAX" :: tax_groups))
    = group_amounts (JList ([] ++ tax_groups)).
Proof.
  assert (H : malformed_group (JStr "TAX")) by (intros m ty E; discriminate E).
  split; [exact H|].
  exact (malformed_group_ignored [] tax_groups (JStr "TAX") H).
Defined.

Lemma find_today_Exists (prices : list json) (iso : string) :
  Exists (dated iso) prices →
  ∃ e, find_today prices iso = Some e ∧ get e "date" = JStr iso.
Proof.
  induction 1 as [x prices (m & -> & Hm)|x prices _ IH]; simpl.
  - rewrite Hm, String.eqb_refl. eauto.
  - destruct x as [| | | | | |m]; try done.
    destruct (get m "date") as [| | | |s| |] eqn:Ed; try done.
    destruct (String.eqb_spec s iso) as [->|]; [|done]. eauto.
Qed.

(** X3.  The chosen entry is always one of the objects of ["prices"]: it
    is dated today, or it is the first entry of the sequence. *)
Theorem chosen_day_member (payload : json) (today : date)
  (c : gmap string json) :
  chosen_day payload today = Some c →
  ∃ prices,
    prices_of payload = Some prices
    ∧ JDict c ∈ prices
    ∧ (get c "date" = JStr (isoformat today) ∨ head prices = Some (JDict c)).
Proof.
  unfold chosen_day, select_day.
  destruct (prices_of payload) as [prices|]; [|done].
  intros H. exists prices. split; [done|].
  destruct (find_today prices (isoformat today)) as [e|] eqn:E.
  - injection H as ->. apply find_today_Some in E as [Hin Hd]. eauto.
  - destruct prices as [|[| | | | | |first] rest]; try done.
    injection H as ->. split; [left | by right].
Qed.

Lemma chosen_day_member_witness :
  (∃ c, chosen_day naive_payload (Date 2024 1 2) = Some c)
  ∧ ∃ c prices,
      prices_of naive_payload = Some prices
      ∧ JDict c ∈ prices
      ∧ (get c "date" = JStr (isoformat (Date 2024 1 2))
         ∨ head prices = Some (JDict c)).
Proof.
  destruct (chosen_day naive_payload (Date 2024 1 2)) as [c|] eqn:E;
    [|vm_compute in E; discriminate E].
  split; [by exists c|].
  exists c. exact (chosen_day_member _ _ _ E).
Defined.

Section ParserMore.

Variable date_fromisoformat : string → option date.
Variable datetime_fromisoformat : string → option datetime.

Abbreviation parse_tariffs := (parse_tariffs datetime_fromisoformat).
Abbreviation parse_electricity := (parse_electricity datetime_fromisoformat).
Abbreviation parse := (parse date_fromisoformat datetime_fromisoformat).

Lemma parse_Some_sorted_nonempty (payload : json) (today : date)
  (data : EssentDayData) :
  parse payload today = Ret (Some data) →
  sorted_by_start (tariffs data) ∧ tariffs data ≠ [].
Proof.
  rewrite parse_unfold.
  destruct (chosen_day payload today) as [c|]; [|discriminate].
  destruct (get c "electricity") as [| | | | | |el]; try discriminate.
  intros H. apply parse_electricity_Some in H
    as (raw & parsed & _ & _ & Hs & Hne & _).
  split; [|done]. by apply sort_by_start_Ret in Hs as [_ Hs].
Qed.

(** X4.  A set returned by the parser is never empty, and the start times
    of its tariffs are of one kind: all naive or all aware. *)
Theorem parsed_set_invariants (payload : json) (today : date)
  (data : EssentDayData) :
  parse payload today = Ret (Some data) →
  tariffs data ≠ [] ∧ ∃ aw, uniform aw (tariffs data).
Proof.
  intros H. apply parse_Some_sorted_nonempty in H as [Hs Hne].
  split; [done|].
  destruct (tariffs data) as [|first rest]; [done|].
  exists (is_aware (start first)). by apply sorted_uniform.
Qed.

(** X5.  The unit and the VAT percentage never decide the parse: whatever
    values they have, the outcome is the same up to those two fields, which
    hold the unit when it is a string and the percentage when it is a
    number, and are absent otherwise. *)
Theorem metadata_lenient (d : date) (el : gmap string json) (v u : json) :
  same_but_metadata
    (parse_electricity d el)
    (parse_electricity d
       (<["vatPercentage" := v]> (<["unitOfMeasurement" := u]> el)))
  ∧ ∀ data,
      parse_electricity d el = Ret (Some data) →
      vat_percentage data = as_number (get el "vatPercentage")
      ∧ unit_of_measurement data =
          match get el "unitOfMeasurement" with
          | JStr s => Some s
          | _ => None
          end.
Proof.
  split.
  - unfold parse_electricity, get.
    rewrite !(lookup_insert_ne _ _ "tariffs") by done.
    destruct (el !! "tariffs") as [[| | | | |[|t raw]|]|]; try done.
    cbv beta iota delta [from_option id mbind outcome_bind].
    destruct (parse_tariffs (t :: raw)) as [[|p parsed]|e]; try done.
    by destruct (sort_by_start (p :: parsed)).
  - intros data H. unfold parse_electricity in H.
    destruct (get el "tariffs") as [| | | | |[|t raw]|]; try discriminate.
    bind_inv H. destruct a as [|p parsed]; [discriminate|].
    bind_inv H. by injection H as <-.
Qed.

(** X6.  When the complete entries of the chosen day are already in
    ascending order of start, the parse returns their tariffs in the order
    of the payload, entries with equal starts included. *)
Theorem ordered_payload_kept (payload : json) (today : date)
  (raw : list json) (parsed : list ParsedTariff) :
  chosen_tariffs payload today = Some raw →
  parse_tariffs raw = Ret parsed →
  parsed ≠ [] →
  sorted_by_start parsed →
  ∃ data, parse payload today = Ret (Some data) ∧ tariffs data = parsed.
Proof.
  rewrite parse_unfold. unfold chosen_tariffs, chosen_electricity.
  destruct (chosen_day payload today) as [c|]; [|discriminate].
  destruct (get c "electricity") as [| | | | | |el]; try discriminate.
  unfold parse_electricity.
  destruct (get el "tariffs") as [| | | | |l|]; try discriminate.
  intros [= ->] Hp Hne Hs.
  destruct raw as [|t raw]; [by injection Hp as <-|].
  rewrite Hp. unfold mbind, outcome_bind; cbn beta iota.
  destruct parsed as [|p parsed]; [done|].
  rewrite (sort_by_start_sorted _ Hs). eexists. split; reflexivity.
Qed.

(** X7.  When ["prices"] has an entry dated today and the date parser
    reads back what [isoformat] writes, the day of the returned set is
    today. *)
Theorem today_entry_day (payload : json) (today : date)
  (prices : list json) (data : EssentDayData) :
  date_fromisoformat (isoformat today) = Some today →
  prices_of payload = Some prices →
  Exists (dated (isoformat today)) prices →
  parse payload today = Ret (Some data) →
  day data = today.
Proof.
  intros Hrt Hprices Hex H.
  apply parse_Some in H as (c & el & raw & parsed & Hc & _ & _ & _ & _ & ->).
  unfold chosen_day, select_day in Hc. rewrite Hprices in Hc.
  destruct (find_today_Exists _ _ Hex) as (e & He & Hd).
  rewrite He in Hc. injection Hc as <-.
  unfold parse_day. by rewrite Hd, Hrt.
Qed.

(** X8.  For every set returned by the parser and every [now], the "next
    hour" sensor returns a price, the total of one of the set's tariffs:
    it neither raises nor returns [None]. *)
Theorem next_hour_after_parse (payload : json) (today : date)
  (data : EssentDayData) (now : datetime) :
  parse payload today = Ret (Some data) →
  ∃ r, r ∈ tariffs data
       ∧ EssentNextHourPriceSensor_native_value (Some data) now
         = Ret (Some (total r)).
Proof.
  intros H. apply parse_Some_sorted_nonempty in H as [Hs Hne].
  destruct (tariffs data) as [|first rest] eqn:E; [done|].
  rewrite <- E in Hs |- *. by eapply next_hour_sensor_value.
Qed.

End ParserMore.

(** * Further properties of the queries *)

Lemma first_starting_after_member (m : datetime) (l : list ParsedTariff)
  (r : ParsedTariff) :
  first_starting_after m l = Ret (Some r) → r ∈ l.
Proof.
  induction l as [|t l IH]; [discriminate|]. simpl. intros H.
  bind_inv H. destruct a.
  - injection H as ->. left.
  - right. by apply IH.
Qed.

Lemma first_on_later_day_member (d : date) (l : list ParsedTariff)
  (r : ParsedTariff) :
  first_on_later_day d l = Some r → r ∈ l.
Proof.
  induction l as [|t l IH]; [discriminate|]. simpl.
  destruct (date_gt (date_of (start t)) d).
  - intros [= ->]. left.
  - intros H. right. by apply IH.
Qed.

Lemma find_next_tariff_uniform (data : EssentDayData) (now : datetime)
  (aw : bool) :
  uniform aw (tariffs data) → ∃ r, _find_next_tariff data now = Ret r.
Proof.
  intros Hu. unfold _find_next_tariff.
  destruct (tariffs data) as [|x l] eqn:E; [by eexists|].
  destruct (sort_by_start_uniform aw _ Hu) as (s & -> & Hp & _).
  cbn beta iota zeta delta [mbind outcome_bind].
  destruct s as [|first rest]; [by apply Permutation_nil_r in Hp|].
  pose proof (uniform_perm _ _ _ Hp Hu) as Hs.
  pose proof (Forall_inv Hs) as Hfirst. simpl in Hfirst.
  set (m := normalize_now (tzinfo (start first)) now).
  assert (Hm : is_aware m = aw).
  { unfold m. by rewrite normalize_now_aware. }
  destruct (first_starting_after_split aw m _ Hs Hm)
    as [[-> _]|(pre & r & post & _ & -> & _)]; cbn beta iota.
  - destruct (first_on_later_day (date_of m) (first :: rest)); [by eexists|].
    destruct (last (first :: rest)) eqn:El; [by eexists|].
    by apply last_None in El.
  - by eexists.
Qed.

(** X9.  [_find_next_tariff] returns exactly when the start times of the
    set are of one kind; the only exception it raises is the [TypeError]
    of the sort, and a tariff it returns is a tariff of the set. *)
Theorem find_next_tariff_total (data : EssentDayData) (now : datetime) :
  ((∃ r, _find_next_tariff data now = Ret r)
   ↔ ∃ aw, uniform aw (tariffs data))
  ∧ (∀ e, _find_next_tariff data now = Raise e → e = TypeError)
  ∧ (∀ r, _find_next_tariff data now = Ret (Some r) → r ∈ tariffs data).
Proof.
  split; [split|split].
  - intros [r H]. unfold _find_next_tariff in H.
    destruct (tariffs data) as [|x l] eqn:E; [exists true; constructor|].
    bind_inv H. by eapply sort_by_start_Ret_inv.
  - intros [aw Hu]. by eapply find_next_tariff_uniform.
  - intros e H.
    destruct (sort_by_start (tariffs data)) as [s|e'] eqn:Es.
    + destruct (sort_by_start_Ret_inv _ _ Es) as [aw Hu].
      destruct (find_next_tariff_uniform data now aw Hu) as [r Hr].
      congruence.
    + unfold _find_next_tariff in H.
      destruct (tariffs data) as [|x l] eqn:E; [discriminate|].
      rewrite Es in H. injection H as <-.
      by apply sort_by_start_Raise in Es as [-> _].
  - intros r H. unfold _find_next_tariff in H.
    destruct (tariffs data) as [|x l] eqn:E; [discriminate|].
    bind_inv H. apply sort_by_start_Ret in Hstep as [Hp _].
    rewrite Hp. destruct a as [|first rest]; [discriminate|].
    bind_inv H. destruct a.
    + injection H as ->. by eapply first_starting_after_member.
    + destruct (first_on_later_day _ _) eqn:Ed.
      * injection H as ->. by eapply first_on_later_day_member.
      * destruct (last (first :: rest)) eqn:El; [|discriminate].
        injection H as ->. by eapply last_Some_elem_of.
Qed.

(** X11.  Normalizing [now] never shifts the wall clock: the result has
    the awareness of the reference and the calendar fields of [now], an
    aware [now] is left as it is by an aware reference, and normalizing
    twice is normalizing once. *)
Theorem normalize_now_wall_clock (reference now : datetime) :
  let m := normalize_now (tzinfo reference) now in
  is_aware m = is_aware reference
  ∧ local_micros m = local_micros now
  ∧ date_of m = date_of now
  ∧ (is_aware reference = true → is_aware now = true → m = now)
  ∧ normalize_now (tzinfo reference) m = m.
Proof.
  simpl. split; [apply normalize_now_aware|].
  unfold normalize_now, is_aware.
  destruct (tzinfo reference) as [tz|]; [destruct (tzinfo now) eqn:E|];
    simpl; rewrite ?E; repeat split; try done.
Qed.

(** X12.  [_start_of_hour] keeps the date, the hour and the offset, and
    is idempotent; for a time of day as Python admits it, the result is
    comparable with the argument, not after it, and less than an hour
    before it. *)
Theorem start_of_hour_bounds (t : datetime) :
  valid_time t →
  dt_le (_start_of_hour t) t = Ret true
  ∧ instant t - instant (_start_of_hour t) < 3600000000
  ∧ _start_of_hour (_start_of_hour t) = _start_of_hour t
  ∧ date_of (_start_of_hour t) = date_of t
  ∧ hour (_start_of_hour t) = hour t
  ∧ tzinfo (_start_of_hour t) = tzinfo t.
Proof.
  intros (Hh & Hm & Hs & Hu).
  assert (Hi : instant (_start_of_hour t) <= instant t
               ∧ instant t - instant (_start_of_hour t) < 3600000000).
  { unfold instant, local_micros, _start_of_hour. simpl.
    destruct (tzinfo t); lia. }
  repeat split; try done; try apply Hi.
  rewrite dt_le_same by done. f_equal. lia.
Qed.

(** * ISO strings written and read back *)

Lemma digit_value_digit (n : Z) : digit_value (digit n) = Some (n mod 10).
Proof.
  unfold digit_value, digit.
  assert (H : 0 <= n mod 10 < 10) by (apply Z.mod_pos_bound; lia).
  rewrite nat_ascii_embedding by lia.
  replace (Z.of_nat (48 + Z.to_nat (n mod 10))) with (48 + n mod 10) by lia.
  rewrite (proj2 (Z.leb_le _ _)) by lia.
  rewrite (proj2 (Z.leb_le _ _)) by lia.
  cbn [andb]. f_equal. lia.
Qed.

Lemma digits_pad2 (n : Z) :
  0 <= n < 100 → digits_value 0 (pad2 n) = Some n.
Proof.
  intros H. unfold pad2. cbn [digits_value]. rewrite !digit_value_digit.
  f_equal. Z.div_mod_to_equations; lia.
Qed.

Lemma digits_pad4 (n : Z) :
  0 <= n < 10000 → digits_value 0 (pad4 n) = Some n.
Proof.
  intros H. unfold pad4, pad2. cbn [digits_value]. rewrite !digit_value_digit.
  f_equal. Z.div_mod_to_equations; lia.
Qed.

Lemma days_in_month_le (y m : Z) : days_in_month y m <= 31.
Proof. unfold days_in_month. repeat case_match; lia. Qed.

Lemma check_date_valid (y m dd : Z) :
  valid_date (Date y m dd) → check_date y m dd = Some (Date y m dd).
Proof.
  intros (Hy & Hm & Hd). cbn [year month day_of_month] in *.
  unfold check_date. by rewrite !(proj2 (Z.leb_le _ _)) by lia.
Qed.

Ltac fold_pads :=
  repeat match goal with
    | |- context [String (digit (?n / 1000)) (String (digit (?n / 100))
                    (String (digit (?n / 10)) (String (digit ?n) ""))) ] =>
        change (String (digit (n / 1000)) (String (digit (n / 100))
                 (String (digit (n / 10)) (String (digit n) ""))))
          with (pad4 n)
    | |- context [String (digit (?n / 10)) (String (digit ?n) "")] =>
        change (String (digit (n / 10)) (String (digit n) "")) with (pad2 n)
    end.

(** X16.  [date_fromisoformat_ext] reads back what [isoformat] writes:
    for every valid calendar date the ISO string parses to that date. *)
Theorem date_isoformat_roundtrip (d : date) :
  valid_date d → date_fromisoformat_ext (isoformat d) = Some d.
Proof.
  intros Hv. pose proof Hv as (Hy & Hm & Hd). destruct d as [y m dd].
  cbn [year month day_of_month] in *.
  pose proof (days_in_month_le y m).
  change (isoformat (Date y m dd)) with
    (String (digit (y / 1000)) (String (digit (y / 100)) (String (digit (y / 10))
    (String (digit y) (String "-" (String (digit (m / 10)) (String (digit m)
    (String "-" (String (digit (dd / 10)) (String (digit dd) "")))))))))).
  unfold date_fromisoformat_ext, date_prefix, char_at, number_at.
  cbn [substring String.length Nat.eqb String.eqb Ascii.eqb andb Bool.eqb].
  fold_pads.
  rewrite digits_pad4, !digits_pad2 by lia.
  cbn [mbind option_bind]. by apply check_date_valid.
Qed.

Lemma offset_isoformat_minutes (off : Z) :
  off mod 60000000 = 0 →
  offset_isoformat off =
  ((if (off <? 0)%Z then "-" else "+")
   ++ pad2 (Z.abs off / 3600000000)%Z ++ ":"
   ++ pad2 (Z.abs off mod 3600000000 / 60000000)%Z)%string.
Proof.
  intros H. unfold offset_isoformat.
  assert (H1 : Z.abs off mod 60000000 / 1000000 = 0)
    by (Z.div_mod_to_equations; lia).
  assert (H2 : Z.abs off mod 1000000 = 0) by (Z.div_mod_to_equations; lia).
  rewrite H1, H2. cbn [Z.eqb andb].
  unfold pad2. destruct (off <? 0); cbn [String.append]; reflexivity.
Qed.

(** X17.  The timestamps exported in the attributes can be read back: for
    a datetime in whole seconds, naive or with an offset in whole minutes,
    [datetime_fromisoformat_ext] returns the datetime that
    [datetime_isoformat] wrote. *)
Theorem datetime_isoformat_roundtrip (t : datetime) :
  exportable t → datetime_fromisoformat_ext (datetime_isoformat t) = Some t.
Proof.
  intros (Hv & (Hh & Hmi & Hs & _) & Hus & Htz).
  destruct t as [[y m dd] h mi s us tz].
  cbn [dt_date hour minute second microsecond tzinfo] in *. subst us.
  pose proof Hv as (Hy & Hm & Hd). cbn [year month day_of_month] in *.
  pose proof (days_in_month_le y m).
  unfold datetime_isoformat.
  cbn [dt_date hour minute second microsecond tzinfo Z.eqb].
  destruct tz as [off|].
  - destruct Htz as [Hoff Hmin].
    rewrite (offset_isoformat_minutes _ Hmin).
    set (hh := Z.abs off / 3600000000).
    set (mm := Z.abs off mod 3600000000 / 60000000).
    assert (Hhh : 0 <= hh <= 23) by (unfold hh; Z.div_mod_to_equations; lia).
    assert (Hmm : 0 <= mm <= 59) by (unfold mm; Z.div_mod_to_equations; lia).
    assert (Hback : (if off <? 0 then -1 else 1) * (hh * 60 + mm) * 60 * 1000000
                    = off).
    { unfold hh, mm. destruct (Z.ltb_spec off 0);
        Z.div_mod_to_equations; lia. }
    destruct (off <? 0);
      lazy beta iota delta [String.append isoformat pad4 pad2 year month
                              day_of_month];
      unfold datetime_fromisoformat_ext, date_prefix, time_at, offset_at,
        char_at, number_at;
      cbn [substring String.length Nat.eqb String.eqb Ascii.eqb andb Bool.eqb
             Nat.add];
      fold_pads;
      rewrite digits_pad4, !digits_pad2 by lia;
      cbn [mbind option_bind]; rewrite check_date_valid by done;
      cbn [mbind option_bind];
      rewrite !(proj2 (Z.leb_le _ _)) by lia;
      cbn [andb mbind option_bind]; rewrite Hback; reflexivity.
  - lazy beta iota delta [String.append isoformat pad4 pad2 year month
                            day_of_month].
    unfold datetime_fromisoformat_ext, date_prefix, time_at, char_at, number_at.
    cbn [substring String.length Nat.eqb String.eqb Ascii.eqb andb Bool.eqb
           Nat.add].
    fold_pads.
    rewrite digits_pad4, !digits_pad2 by lia.
    cbn [mbind option_bind]. rewrite check_date_valid by done.
    cbn [mbind option_bind].
    rewrite !(proj2 (Z.leb_le _ _)) by lia. reflexivity.
Qed.

(** * The [min] and [max] sensors *)

Lemma SFltb_irrefl (a : float) : SFltb a a = false.
Proof.
  unfold SFltb, SFcompare.
  destruct a as [s|s| |s m e]; try destruct s; try done.
  all: rewrite Z.compare_refl.
  all: change (Pos.compare_cont Eq m m) with (Pos.compare m m).
  all: by rewrite Pos.compare_refl.
Qed.

Lemma SFltb_trans (a b c : float) :
  SFltb a b = true → SFltb b c = true → SFltb a c = true.
Proof.
  unfold SFltb, SFcompare.
  destruct a as [sa|sa| |sa ma ea], b as [sb|sb| |sb mb eb],
    c as [sc|sc| |sc mc ec];
    try destruct sa; try destruct sb; try destruct sc; try done.
  all: change (Pos.compare_cont Eq ?x ?y) with (Pos.compare x y).
  all: destruct (Z.compare_spec ea eb), (Z.compare_spec eb ec),
         (Z.compare_spec ea ec); try done; try lia.
  all: destruct (Pos.compare_spec ma mb), (Pos.compare_spec mb mc),
         (Pos.compare_spec ma mc); simpl; try done; try lia.
Qed.

Lemma SFltb_not_true (a b : float) : (SFltb a b = true → False) → SFltb a b = false.
Proof. destruct (SFltb a b); [intros H; by destruct H | done]. Qed.

Lemma min_from_spec (cur : float) (l : list float) :
  (min_from cur l = cur
   ∨ (min_from cur l ∈ l ∧ SFltb (min_from cur l) cur = true))
  ∧ ∀ x, x ∈ l → SFltb x (min_from cur l) = false.
Proof.
  revert cur. induction l as [|x l IH]; intros cur; simpl.
  - split; [by left|]. intros x Hx. by apply elem_of_nil in Hx.
  - destruct (SFltb x cur) eqn:E.
    + destruct (IH x) as [[Hm|[Hm Hlt]] Hall].
      * split.
        -- right. rewrite Hm. split; [left | done].
        -- intros y Hy. apply elem_of_cons in Hy as [->|Hy]; [|by apply Hall].
           rewrite Hm. apply SFltb_irrefl.
      * split.
        -- right. split; [by right | by eapply SFltb_trans].
        -- intros y Hy. apply elem_of_cons in Hy as [->|Hy]; [|by apply Hall].
           apply SFltb_not_true. intros Hxm.
           pose proof (SFltb_trans _ _ _ Hxm Hlt) as Hxx.
           by rewrite SFltb_irrefl in Hxx.
    + destruct (IH cur) as [[Hm|[Hm Hlt]] Hall].
      * split; [by left|].
        intros y Hy. apply elem_of_cons in Hy as [->|Hy]; [|by apply Hall].
        by rewrite Hm.
      * split; [right; split; [by right | done]|].
        intros y Hy. apply elem_of_cons in Hy as [->|Hy]; [|by apply Hall].
        apply SFltb_not_true. intros Hxm.
        pose proof (SFltb_trans _ _ _ Hxm Hlt) as Hxc. congruence.
Qed.

Lemma max_from_spec (cur : float) (l : list float) :
  (max_from cur l = cur
   ∨ (max_from cur l ∈ l ∧ SFltb cur (max_from cur l) = true))
  ∧ ∀ x, x ∈ l → SFltb (max_from cur l) x = false.
Proof.
  revert cur. induction l as [|x l IH]; intros cur; simpl.
  - split; [by left|]. intros x Hx. by apply elem_of_nil in Hx.
  - destruct (SFltb cur x) eqn:E.
    + destruct (IH x) as [[Hm|[Hm Hlt]] Hall].
      * split.
        -- right. rewrite Hm. split; [left | done].
        -- intros y Hy. apply elem_of_cons in Hy as [->|Hy]; [|by apply Hall].
           rewrite Hm. apply SFltb_irrefl.
      * split.
        -- right. split; [by right | by eapply SFltb_trans].
        -- intros y Hy. apply elem_of_cons in Hy as [->|Hy]; [|by apply Hall].
           apply SFltb_not_true. intros Hmx.
           pose proof (SFltb_trans _ _ _ Hlt Hmx) as Hxx.
           by rewrite SFltb_irrefl in Hxx.
    + destruct (IH cur) as [[Hm|[Hm Hlt]] Hall].
      * split; [by left|].
        intros y Hy. apply elem_of_cons in Hy as [->|Hy]; [|by apply Hall].
        by rewrite Hm.
      * split; [right; split; [by right | done]|].
        intros y Hy. apply elem_of_cons in Hy as [->|Hy]; [|by apply Hall].
        apply SFltb_not_true. intros Hmx.
        pose proof (SFltb_trans _ _ _ Hlt Hmx) as Hcx. congruence.
Qed.

Lemma min_max_nonempty (data : EssentDayData) :
  tariffs data ≠ [] →
  ∃ lo hi,
    EssentMinPriceTodaySensor_native_value (Some data) = Returned (Some lo)
    ∧ EssentMaxPriceTodaySensor_native_value (Some data) = Returned (Some hi)
    ∧ (∃ t, t ∈ tariffs data ∧ total t = lo)
    ∧ (∃ t, t ∈ tariffs data ∧ total t = hi)
    ∧ ∀ t, t ∈ tariffs data →
        SFltb (total t) lo = false ∧ SFltb hi (total t) = false.
Proof.
  intros Hne. unfold EssentMinPriceTodaySensor_native_value,
    EssentMaxPriceTodaySensor_native_value.
  destruct (tariffs data) as [|first rest]; [done|]. simpl.
  destruct (min_from_spec (total first) (map total rest)) as [Hlo Hlo_all].
  destruct (max_from_spec (total first) (map total rest)) as [Hhi Hhi_all].
  eexists _, _. split; [reflexivity|]. split; [reflexivity|].
  split; [|split].
  - destruct Hlo as [->|[Hin _]]; [exists first; split; [left | done]|].
    apply list_elem_of_fmap in Hin as (t & Ht & Hin).
    exists t. split; [by right | done].
  - destruct Hhi as [->|[Hin _]]; [exists first; split; [left | done]|].
    apply list_elem_of_fmap in Hin as (t & Ht & Hin).
    exists t. split; [by right | done].
  - intros t Ht. apply elem_of_cons in Ht as [->|Ht].
    + split.
      * destruct Hlo as [->|[_ Hlt]]; [apply SFltb_irrefl|].
        apply SFltb_not_true. intros H.
        pose proof (SFltb_trans _ _ _ H Hlt) as Hxx.
        by rewrite SFltb_irrefl in Hxx.
      * destruct Hhi as [->|[_ Hlt]]; [apply SFltb_irrefl|].
        apply SFltb_not_true. intros H.
        pose proof (SFltb_trans _ _ _ Hlt H) as Hxx.
        by rewrite SFltb_irrefl in Hxx.
    + split; [apply Hlo_all | apply Hhi_all];
        apply list_elem_of_fmap; by exists t.
Qed.

(** X13.  On a set without tariffs the min and max sensors raise the
    [ValueError] of the builtin.  On any other set each returns the total of
    one of the tariffs: no tariff's total is below the min sensor's value
    and none is above the max sensor's. *)
Theorem min_max_prices (data : EssentDayData) :
  (tariffs data = [] →
   EssentMinPriceTodaySensor_native_value (Some data) = RaisedValueError
   ∧ EssentMaxPriceTodaySensor_native_value (Some data) = RaisedValueError)
  ∧ (tariffs data ≠ [] →
     ∃ lo hi,
       EssentMinPriceTodaySensor_native_value (Some data) = Returned (Some lo)
       ∧ EssentMaxPriceTodaySensor_native_value (Some data)
         = Returned (Some hi)
       ∧ (∃ t, t ∈ tariffs data ∧ total t = lo)
       ∧ (∃ t, t ∈ tariffs data ∧ total t = hi)
       ∧ ∀ t, t ∈ tariffs data →
           SFltb (total t) lo = false ∧ SFltb hi (total t) = false).
Proof.
  split; [|apply min_max_nonempty].
  unfold EssentMinPriceTodaySensor_native_value,
    EssentMaxPriceTodaySensor_native_value.
  by intros ->.
Qed.

(** X14.  For every set returned by the parser the min and max sensors
    return prices and never raise: the parser's sets are not empty. *)
Theorem min_max_after_parse
  (date_fromisoformat : string → option date)
  (datetime_fromisoformat : string → option datetime)
  (payload : json) (today : date) (data : EssentDayData) :
  parse date_fromisoformat datetime_fromisoformat payload today
    = Ret (Some data) →
  ∃ lo hi,
    EssentMinPriceTodaySensor_native_value (Some data) = Returned (Some lo)
    ∧ EssentMaxPriceTodaySensor_native_value (Some data) = Returned (Some hi)
    ∧ (∃ t, t ∈ tariffs data ∧ total t = lo)
    ∧ (∃ t, t ∈ tariffs data ∧ total t = hi)
    ∧ ∀ t, t ∈ tariffs data →
        SFltb (total t) lo = false ∧ SFltb hi (total t) = false.
Proof.
  intros H. apply parse_Some_sorted_nonempty in H as [_ Hne].
  by apply min_max_nonempty.
Qed.

(** * The exported attributes *)

(** X15.  Without data the attributes are the empty dictionary.  With
    data, the exported tariffs are the first 48 of the set, in order, each
    as its compact entry: never more than 48, whatever the set holds. *)
Theorem attributes_capped (d : EssentDayData) :
  extra_state_attributes None = ∅
  ∧ ∃ l,
      extra_state_attributes (Some d) !! "tariffs" = Some (JList l)
      ∧ length l = Nat.min 48 (length (tariffs d))
      ∧ (length l <= 48)%nat
      ∧ (∀ i t, (i < 48)%nat → tariffs d !! i = Some t →
                l !! i = Some (compact_tariff t))
      ∧ extra_state_attributes (Some d) !! "day"
        = Some (JStr (isoformat (day d))).
Proof.
  split; [done|].
  exists (map compact_tariff (take 48 (tariffs d))).
  unfold extra_state_attributes.
  split; [by rewrite !lookup_insert_ne, lookup_insert_eq by done|].
  rewrite length_map, length_take.
  split; [done|]. split; [lia|]. split.
  - intros i t Hi Ht.
    change (map compact_tariff) with (fmap (M:=list) compact_tariff).
    by rewrite list_lookup_fmap, lookup_take_lt, Ht by done.
  - by rewrite !lookup_insert_ne, lookup_insert_eq by done.
Qed.

(** * Sensors after a failed update *)

(** X18.  After a refresh whose fetch failed or whose payload had a
    structural failure, the sensors are unavailable: the "now", "next
    hour", min and max sensors return [None] and the attributes are the
    empty dictionary, whatever the coordinator held before. *)
Theorem unavailable_after_failure
  (date_fromisoformat : string → option date)
  (datetime_fromisoformat : string → option datetime)
  (c : coordinator) (fetch : option json) (today : date) (now : datetime) :
  failed_update datetime_fromisoformat fetch today →
  let c' := async_refresh date_fromisoformat datetime_fromisoformat
              c fetch today in
  available c' = false
  ∧ EssentNowPriceSensor_native_value (data c') now = Ret None
  ∧ EssentNextHourPriceSensor_native_value (data c') now = Ret None
  ∧ EssentMinPriceTodaySensor_native_value (data c') = Returned None
  ∧ EssentMaxPriceTodaySensor_native_value (data c') = Returned None
  ∧ extra_state_attributes (data c') = ∅.
Proof.
  intros H. apply (failed_update_no_data date_fromisoformat) in H.
  unfold async_refresh, available. by rewrite H.
Qed.

(** * The further properties at concrete inputs *)

Lemma parsed_set_invariants_witness :
  parse date_fromisoformat_ext datetime_fromisoformat_ext naive_payload
    (Date 2024 1 2) = Ret (Some naive_day)
  ∧ tariffs naive_day ≠ [] ∧ ∃ aw, uniform aw (tariffs naive_day).
Proof.
  split; [exact parse_naive_payload|].
  exact (parsed_set_invariants _ _ _ _ _ parse_naive_payload).
Defined.

Lemma metadata_lenient_witness :
  parse_electricity datetime_fromisoformat_ext (Date 2024 1 1)
    naive_electricity = Ret (Some naive_day)
  ∧ parse_electricity datetime_fromisoformat_ext (Date 2024 1 1)
      (<["vatPercentage" := JStr "high"]>
         (<["unitOfMeasurement" := JInt 3]> naive_electricity))
    = Ret (Some {| day := Date 2024 1 1; vat_percentage := None;
                   unit_of_measurement := None;
                   tariffs := [first_hour; second_hour] |})
  ∧ same_but_metadata
      (parse_electricity datetime_fromisoformat_ext (Date 2024 1 1)
         naive_electricity)
      (parse_electricity datetime_fromisoformat_ext (Date 2024 1 1)
         (<["vatPercentage" := JStr "high"]>
            (<["unitOfMeasurement" := JInt 3]> naive_electricity)))
  ∧ vat_percentage naive_day
    = as_number (get naive_electricity "vatPercentage")
  ∧ unit_of_measurement naive_day =
      match get naive_electricity "unitOfMeasurement" with
      | JStr s => Some s
      | _ => None
      end.
Proof.
  assert (H : parse_electricity datetime_fromisoformat_ext (Date 2024 1 1)
                naive_electricity = Ret (Some naive_day))
    by (vm_compute; reflexivity).
  destruct (metadata_lenient datetime_fromisoformat_ext (Date 2024 1 1)
              naive_electricity (JStr "high") (JInt 3)) as [Hsame Hfields].
  split; [exact H|].
  split; [vm_compute; reflexivity|].
  split; [exact Hsame|].
  exact (Hfields naive_day H).
Defined.

Lemma ordered_payload_kept_witness :
  chosen_tariffs naive_payload (Date 2024 1 2)
    = Some [tariff_entry "2024-01-01T00:00:00" "2024-01-01T01:00:00" (JInt 1);
            tariff_entry "2024-01-01T01:00:00" "2024-01-01T02:00:00" (JInt 2)]
  ∧ ∃ data,
      parse date_fromisoformat_ext datetime_fromisoformat_ext naive_payload
        (Date 2024 1 2) = Ret (Some data)
      ∧ tariffs data = [first_hour; second_hour].
Proof.
  assert (H1 : chosen_tariffs naive_payload (Date 2024 1 2)
    = Some [tariff_entry "2024-01-01T00:00:00" "2024-01-01T01:00:00" (JInt 1);
            tariff_entry "2024-01-01T01:00:00" "2024-01-01T02:00:00" (JInt 2)])
    by (vm_compute; reflexivity).
  split; [exact H1|].
  apply (ordered_payload_kept date_fromisoformat_ext datetime_fromisoformat_ext
           _ _ _ [first_hour; second_hour] H1).
  - vm_compute. reflexivity.
  - discriminate.
  - exact naive_day_sorted.
Defined.

Lemma today_entry_day_witness :
  date_fromisoformat_ext (isoformat (Date 2024 1 1)) = Some (Date 2024 1 1)
  ∧ prices_of naive_payload = Some [naive_entry]
  ∧ Exists (dated (isoformat (Date 2024 1 1))) [naive_entry]
  ∧ day naive_day = Date 2024 1 1.
Proof.
  assert (H1 : date_fromisoformat_ext (isoformat (Date 2024 1 1))
               = Some (Date 2024 1 1)) by (vm_compute; reflexivity).
  assert (H2 : prices_of naive_payload = Some [naive_entry])
    by (vm_compute; reflexivity).
  assert (H3 : Exists (dated (isoformat (Date 2024 1 1))) [naive_entry]).
  { apply Exists_cons_hd. eexists. split; [reflexivity|].
    vm_compute. reflexivity. }
  split; [exact H1|]. split; [exact H2|]. split; [exact H3|].
  apply (today_entry_day date_fromisoformat_ext datetime_fromisoformat_ext
           naive_payload (Date 2024 1 1) [naive_entry] naive_day H1 H2 H3).
  vm_compute. reflexivity.
Defined.

Lemma next_hour_after_parse_witness :
  parse date_fromisoformat_ext datetime_fromisoformat_ext naive_payload
    (Date 2024 1 2) = Ret (Some naive_day)
  ∧ ∃ r, r ∈ tariffs naive_day
         ∧ EssentNextHourPriceSensor_native_value (Some naive_day)
             (jan 1 0 None) = Ret (Some (total r)).
Proof.
  split; [exact parse_naive_payload|].
  exact (next_hour_after_parse _ _ _ _ _ (jan 1 0 None) parse_naive_payload).
Defined.

Lemma find_next_tariff_total_witness :
  (∃ aw, uniform aw (tariffs naive_day))
  ∧ ∃ r, _find_next_tariff naive_day aware_now = Ret r.
Proof.
  assert (H : ∃ aw, uniform aw (tariffs naive_day))
    by (exists false; repeat constructor).
  split; [exact H|].
  exact (proj2 (proj1 (find_next_tariff_total naive_day aware_now)) H).
Defined.

Lemma find_tariff_for_moment_comparable_witness :
  Forall (λ t, is_aware (start t) = is_aware (jan 1 1 None)
               ∧ is_aware (end_ t) = is_aware (jan 1 1 None))
    (tariffs naive_day)
  ∧ _find_tariff_for_moment naive_day (jan 1 1 None)
    = Ret (List.find (covers_instant (jan 1 1 None)) (tariffs naive_day)).
Proof.
  assert (H : Forall (λ t, is_aware (start t) = is_aware (jan 1 1 None)
                           ∧ is_aware (end_ t) = is_aware (jan 1 1 None))
                (tariffs naive_day)) by (repeat constructor).
  split; [exact H|].
  exact (find_tariff_for_moment_comparable naive_day (jan 1 1 None) H).
Defined.

Lemma normalize_now_wall_clock_witness :
  is_aware (normalize_now (tzinfo (start first_hour)) aware_now)
    = is_aware (start first_hour)
  ∧ local_micros (normalize_now (tzinfo (start first_hour)) aware_now)
    = local_micros aware_now.
Proof.
  destruct (normalize_now_wall_clock (start first_hour) aware_now)
    as (H1 & H2 & _).
  split; [exact H1 | exact H2].
Defined.

Lemma start_of_hour_bounds_witness :
  valid_time aware_now
  ∧ dt_le (_start_of_hour aware_now) aware_now = Ret true
  ∧ instant aware_now - instant (_start_of_hour aware_now) < 3600000000.
Proof.
  assert (H : valid_time aware_now) by (unfold valid_time; simpl; lia).
  split; [exact H|].
  destruct (start_of_hour_bounds aware_now H) as (H1 & H2 & _).
  split; [exact H1 | exact H2].
Defined.

Lemma min_max_prices_witness :
  tariffs naive_day ≠ []
  ∧ ∃ lo hi,
      EssentMinPriceTodaySensor_native_value (Some naive_day)
        = Returned (Some lo)
      ∧ EssentMaxPriceTodaySensor_native_value (Some naive_day)
        = Returned (Some hi)
      ∧ (∃ t, t ∈ tariffs naive_day ∧ total t = lo)
      ∧ (∃ t, t ∈ tariffs naive_day ∧ total t = hi)
      ∧ ∀ t, t ∈ tariffs naive_day →
          SFltb (total t) lo = false ∧ SFltb hi (total t) = false.
Proof.
  assert (H : tariffs naive_day ≠ []) by discriminate.
  split; [exact H|].
  exact (proj2 (min_max_prices naive_day) H).
Defined.

Lemma min_max_after_parse_witness :
  parse date_fromisoformat_ext datetime_fromisoformat_ext naive_payload
    (Date 2024 1 2) = Ret (Some naive_day)
  ∧ ∃ lo hi,
      EssentMinPriceTodaySensor_native_value (Some naive_day)
        = Returned (Some lo)
      ∧ EssentMaxPriceTodaySensor_native_value (Some naive_day)
        = Returned (Some hi)
      ∧ (∃ t, t ∈ tariffs naive_day ∧ total t = lo)
      ∧ (∃ t, t ∈ tariffs naive_day ∧ total t = hi)
      ∧ ∀ t, t ∈ tariffs naive_day →
          SFltb (total t) lo = false ∧ SFltb hi (total t) = false.
Proof.
  split; [exact parse_naive_payload|].
  exact (min_max_after_parse _ _ _ _ _ parse_naive_payload).
Defined.

Lemma attributes_capped_witness :
  ∃ l,
    extra_state_attributes (Some naive_day) !! "tariffs" = Some (JList l)
    ∧ length l = Nat.min 48 (length (tariffs naive_day))
    ∧ (length l <= 48)%nat
    ∧ (∀ i t, (i < 48)%nat → tariffs naive_day !! i = Some t →
              l !! i = Some (compact_tariff t))
    ∧ extra_state_attributes (Some naive_day) !! "day"
      = Some (JStr (isoformat (day naive_day))).
Proof.
  exact (proj2 (attributes_capped naive_day)).
Defined.

Lemma date_isoformat_roundtrip_witness :
  valid_date (Date 2024 2 29)
  ∧ date_fromisoformat_ext (isoformat (Date 2024 2 29))
    = Some (Date 2024 2 29).
Proof.
  assert (H : valid_date (Date 2024 2 29)).
  { unfold valid_date. simpl. change (days_in_month 2024 2) with 29. lia. }
  split; [exact H|].
  exact (date_isoformat_roundtrip _ H).
Defined.

Lemma datetime_isoformat_roundtrip_witness :
  exportable aware_now
  ∧ datetime_fromisoformat_ext (datetime_isoformat aware_now)
    = Some aware_now.
Proof.
  assert (H : exportable aware_now).
  { unfold exportable, valid_date, valid_time. simpl.
    change (days_in_month 2024 1) with 31.
    change (3600000000 mod 60000000) with 0. lia. }
  split; [exact H|].
  exact (datetime_isoformat_roundtrip _ H).
Defined.

Lemma unavailable_after_failure_witness :
  failed_update datetime_fromisoformat_ext (Some (JDict ∅)) (Date 2024 1 2)
  ∧ available
      (async_refresh date_fromisoformat_ext datetime_fromisoformat_ext
         {| data := Some naive_day; last_update_success := true |}
         (Some (JDict ∅)) (Date 2024 1 2)) = false.
Proof.
  assert (H : failed_update datetime_fromisoformat_ext (Some (JDict ∅))
                (Date 2024 1 2)).
  { right. exists (JDict ∅). split; [reflexivity|].
    apply prices_missing. reflexivity. }
  split; [exact H|].
  exact (proj1 (unavailable_after_failure date_fromisoformat_ext
                  datetime_fromisoformat_ext
                  {| data := Some naive_day; last_update_success := true |}
                  (Some (JDict ∅)) (Date 2024 1 2) aware_now H)).
Defined.
